(** * Edu-Board: the kanban board service of [app.py]

    A shallow embedding of the Flask application in [src/app.py]: the four
    SQLAlchemy models and the [board_collaborators] association table become
    a record of finite maps, every HTTP view function becomes a function from
    the request and the database to an [Outcome] (response, database after
    the request, flashed messages, Socket.IO events, session change), and the
    properties of the specification are proved about these functions.

    [src/models.py] declares an older copy of the models; [app.py] does not
    import it and declares its own, which are the ones embedded here. *)

From Stdlib Require Import Ascii.
From stdpp Require Import base option gmap strings pretty list fin_maps.

Open Scope string_scope.

(** ** The models

    Primary keys are the keys of the maps.  Ids are [N]: the route converter
    [<int:...>] only matches non-negative integers.  [db.Integer] columns that
    hold client data ([Card.position]) and the [DateTime] columns are [Z].
    The driver binds an integer as a signed 64-bit one ([int_ok] below): the
    integers a request brings and a view writes are tested against it, the key
    of a row that is there is within it, and the statements about ids that
    are no row are made for ids within it.  The [String(n)] length limits are
    not part of [app.py] and are not modelled. *)

Record User := mkUser {
  username : string;
  password : string;
  user_date_created : Z
}.

Record Board := mkBoard {
  board_name : string;
  board_date_created : Z;
  user_id : N
}.

Record List := mkList {
  list_name : string;
  board_id : N
}.

Record Card := mkCard {
  title : string;
  description : option string;
  position : Z;
  card_date_created : Z;
  list_id : N
}.

(** [board_collaborators] has the composite primary key
    [(board_id, user_id)]: a set of pairs. *)
Record DB := mkDB {
  users : gmap N User;
  boards : gmap N Board;
  lists : gmap N List;
  cards : gmap N Card;
  board_collaborators : gset (N * N)
}.

(** [db.create_all()] on a new database. *)
Definition empty_db : DB := mkDB ∅ ∅ ∅ ∅ ∅.

(** ** What lies outside [app.py]

    [config.py] (the database URI, hence the engine) is not part of the
    sources, and werkzeug's password functions and Python's [str.strip] are
    library code.  They are the fields of a [Platform], over which the whole
    development is parametric:
    - [fk_enforced]: whether the engine rejects a row whose foreign key does
      not resolve (SQLite does not unless told to, PostgreSQL does);
    - [generate_password_hash salt pwd] and [check_password_hash hash pwd]:
      werkzeug's functions, the salt made explicit;
    - [strip]: [str.strip]. *)
Record Platform := mkPlatform {
  fk_enforced : bool;
  generate_password_hash : string → string → string;
  check_password_hash : string → string → bool;
  strip : string → string
}.

(** What one request draws from its environment: the primary key the engine
    assigns to an inserted row, the salt of the password hash,
    [datetime.utcnow()] and the draw of [random.choice]. *)
Record Env := mkEnv {
  new_id : N;
  salt : string;
  utcnow : Z;
  rand : nat
}.

(** ** Requests and responses *)

Inductive Method := GET | POST.

(** [request.get_json()] is a JSON object with integer values, as
    [/move_card] documents its body. *)
Record Request := mkRequest {
  method : Method;
  form : gmap string string;
  get_json : gmap string Z;
  referrer : option string;
  session_user_id : option N
}.

Inductive Endpoint :=
  | ep_login
  | ep_register
  | ep_dashboard
  | ep_view_board (board_id : N).

Inductive Response :=
  | Redirect (target : Endpoint)              (* redirect(url_for(...)) *)
  | RedirectUrl (location : option string)    (* redirect(request.referrer) *)
  | Render (template : string) (motivation : string)  (* context not kept *)
  | Jsonify (body : list (string * string)) (status : Z)
  | Abort (status : Z)                        (* get_or_404, missing form key *)
  | Unhandled (exception : string).           (* an exception nobody catches *)

(** [room=f'board_{board_id}'], or no room: every connected client. *)
Inductive Room := all_clients | board_room (board_id : N).

Record Event := mkEvent {
  event_name : string;
  event_data : list (string * N);
  event_room : Room
}.

Inductive SessionOp := keep_session | login_user (id : N) | logout_user.

Record Outcome := mkOutcome {
  response : Response;
  db_after : DB;
  flashed : list string;
  emitted : list Event;
  session_op : SessionOp
}.

(** A view function that returns without committing. *)
Definition reply (db : DB) (msgs : list string) (r : Response) : Outcome :=
  mkOutcome r db msgs [] keep_session.

(** A view function that returns after [db.session.commit()]. *)
Definition committed (db' : DB) (msgs : list string) (evs : list Event)
    (r : Response) : Outcome :=
  mkOutcome r db' msgs evs keep_session.

(** Early exits: [inl] carries the outcome of a view function that stops,
    [inr] the value it goes on with. *)
Definition Step (A : Type) : Type := Outcome + A.

Definition step_bind {A} (m : Step A) (k : A → Outcome) : Outcome :=
  match m with
  | inl o => o
  | inr a => k a
  end.

Notation "'let*' x := m 'in' k" := (step_bind m (λ x, k))
  (at level 10, x pattern, m at level 100, k at level 200,
   format "'[v' 'let*'  x  :=  m  'in' '/' k ']'").

(** ** Motivational lines *)

Definition motivations : list string := [
  "Push yourself — no one else will do it for you!";
  "Success is built one small step at a time.";
  "Dream big. Start small. Act now.";
  "Every day is progress — keep going!";
  "Your only limit is your effort today."
].

(** [random.choice(motivations)], the draw taken from the environment. *)
Definition inject_motivation (env : Env) : string :=
  nth (rand env mod length motivations) motivations EmptyString.

Definition render_template (env : Env) (template : string) : Response :=
  Render template (inject_motivation env).

(** ** Login management *)

(** [load_user]: [User.query.get(int(user_id))] on the id in the session. *)
Definition current_user (db : DB) (req : Request) : option (N * User) :=
  uid ← session_user_id req; u ← users db !! uid; Some (uid, u).

(** [@login_required]: with [login_manager.login_view = 'login'] an
    anonymous request is flashed Flask-Login's message and sent to the
    login page. *)
Definition login_required (db : DB) (req : Request) : Step (N * User) :=
  match current_user db req with
  | Some cu => inr cu
  | None => inl (reply db ["Please log in to access this page."] (Redirect ep_login))
  end.

(** [Model.query.get_or_404(id)], for an id within the driver's range (a key
    of the table is). *)
Definition get_or_404 {A} (db : DB) (row : option A) : Step A :=
  match row with
  | Some a => inr a
  | None => inl (reply db [] (Abort 404))
  end.

(** [request.form[key]]: a missing key is a [BadRequestKeyError], status 400. *)
Definition form_item (db : DB) (req : Request) (key : string) : Step string :=
  match form req !! key with
  | Some v => inr v
  | None => inl (reply db [] (Abort 400))
  end.

(** Attribute access on the value of a many-to-one relationship
    ([board.owner.id], [card.list.board_id]): the relationship is [None] when
    the parent row does not exist, and the access raises. *)
Definition related {A} (db : DB) (parent : option A) : Step A :=
  match parent with
  | Some a => inr a
  | None => inl (reply db [] (Unhandled "AttributeError"))
  end.

(** [User.query.filter_by(username=uname).first()] *)
Definition first_by_username (db : DB) (uname : string) : option (N * User) :=
  head (filter (λ r, username r.2 = uname) (map_to_list (users db))).

(** [user in board.collaborators], for a [user] that is a row of [users]
    (the two uses test [current_user] and the result of a query):
    [UserMixin.__eq__] compares ids, and the relationship lists the users
    joined through [board_collaborators]. *)
Definition is_collaborator (db : DB) (bid uid : N) : bool :=
  bool_decide ((bid, uid) ∈ board_collaborators db).

(** The integers the driver can bind: beyond the signed 64-bit range the
    bind raises [OverflowError] before the statement reaches the engine. *)
Definition int_ok (z : Z) : bool :=
  ((- 2 ^ 63 <=? z) && (z <? 2 ^ 63))%Z.

Definition id_ok (k : N) : bool := int_ok (Z.of_N k).

(** The bind of a foreign key column in an INSERT: the key of a parent row is
    in range; any other integer must be, or the bind raises and nothing is
    written. *)
Definition bind_fk {A} (db : DB) (parent : gmap N A) (k : N) : Step unit :=
  match parent !! k with
  | Some _ => inr ()
  | None => if id_ok k then inr ()
            else inl (reply db [] (Unhandled "OverflowError"))
  end.

(** A foreign key that the engine accepts on insert. *)
Definition fk_ok {A} (P : Platform) (parent : gmap N A) (k : N) : bool :=
  negb (fk_enforced P) || bool_decide (is_Some (parent !! k)).

(** [db.session.add(row); db.session.commit()]: the engine assigns
    [new_id env]; a key already in use or a foreign key it rejects is an
    [IntegrityError] and nothing is written. *)
Definition insert_row {A} (db : DB) (env : Env) (table : gmap N A) (fk : bool)
    : Step N :=
  match table !! new_id env with
  | None => if fk then inr (new_id env)
            else inl (reply db [] (Unhandled "IntegrityError"))
  | Some _ => inl (reply db [] (Unhandled "IntegrityError"))
  end.

Section Views.

Context (P : Platform).

(** ** Auth *)

Definition register (env : Env) (req : Request) (db : DB) : Outcome :=
  match method req with
  | POST =>
      let* uname := form_item db req "username" in
      let* pwd := form_item db req "password" in
      match first_by_username db uname with
      | Some _ => reply db ["Username already exists!"] (Redirect ep_register)
      | None =>
          let hashed_pwd := generate_password_hash P (salt env) pwd in
          let new_user := mkUser uname hashed_pwd (utcnow env) in
          let* uid := insert_row db env (users db) true in
          committed
            (mkDB (<[uid := new_user]> (users db)) (boards db) (lists db)
                  (cards db) (board_collaborators db))
            ["Registration successful! Please login."] []
            (Redirect ep_login)
      end
  | GET => reply db [] (render_template env "register.html")
  end.

Definition login (env : Env) (req : Request) (db : DB) : Outcome :=
  match method req with
  | POST =>
      let* uname := form_item db req "username" in
      let* pwd := form_item db req "password" in
      match first_by_username db uname with
      | Some (uid, user) =>
          if check_password_hash P (password user) pwd
          then mkOutcome (Redirect ep_dashboard) db [] [] (login_user uid)
          else reply db ["Invalid credentials!"] (render_template env "login.html")
      | None => reply db ["Invalid credentials!"] (render_template env "login.html")
      end
  | GET => reply db [] (render_template env "login.html")
  end.

Definition logout (env : Env) (req : Request) (db : DB) : Outcome :=
  let* _ := login_required db req in
  mkOutcome (Redirect ep_login) db ["You have been logged out."] [] logout_user.

Definition home (env : Env) (req : Request) (db : DB) : Outcome :=
  reply db [] (Redirect ep_login).

(** ** Dashboard *)

Definition dashboard (env : Env) (req : Request) (db : DB) : Outcome :=
  let* _ := login_required db req in
  reply db [] (render_template env "dashboard.html").

(** ** Board CRUD *)

Definition refresh_dashboard : Event := mkEvent "refresh_dashboard" [] all_clients.

Definition refresh_board (bid : N) : Event :=
  mkEvent "refresh_board" [("board_id", bid)] (board_room bid).

Definition create_board (env : Env) (req : Request) (db : DB) : Outcome :=
  let* cu := login_required db req in
  let* name := form_item db req "board_name" in
  let new_board := mkBoard name (utcnow env) cu.1 in
  let* bid := insert_row db env (boards db) (fk_ok P (users db) cu.1) in
  committed
    (mkDB (users db) (<[bid := new_board]> (boards db)) (lists db) (cards db)
          (board_collaborators db))
    ["✅ Board created successfully!"] [refresh_dashboard]
    (Redirect ep_dashboard).

Definition update_board (board_id : N) (env : Env) (req : Request) (db : DB)
    : Outcome :=
  let* cu := login_required db req in
  let* board := get_or_404 db (boards db !! board_id) in
  let* owner := related db (users db !! user_id board) in
  if negb (bool_decide (user_id board = cu.1))
  then reply db ["⚠️ Unauthorized action."] (Redirect ep_dashboard)
  else
    let* name := form_item db req "board_name" in
    let board' := mkBoard name (board_date_created board) (user_id board) in
    committed
      (mkDB (users db) (<[board_id := board']> (boards db)) (lists db) (cards db)
            (board_collaborators db))
      ["✅ Board renamed successfully!"] [refresh_dashboard]
      (Redirect ep_dashboard).

(** [card.list.board_id], when the card's list exists. *)
Definition board_of_card (db : DB) (c : Card) : option N :=
  board_id <$> lists db !! list_id c.

(** [db.session.delete(board)]: the unit of work deletes the board, the
    lists of [board.lists] and the cards of their [cards] (both
    relationships have [cascade="all, delete"]), and the rows of the
    [secondary] table of [board.collaborators]. *)
Definition session_delete_board (db : DB) (bid : N) : DB :=
  mkDB (users db)
       (delete bid (boards db))
       (filter (λ r, board_id r.2 ≠ bid) (lists db))
       (filter (λ r, board_of_card db r.2 ≠ Some bid) (cards db))
       (filter (λ r, r.1 ≠ bid) (board_collaborators db)).

Definition delete_board (board_id : N) (env : Env) (req : Request) (db : DB)
    : Outcome :=
  let* cu := login_required db req in
  let* board := get_or_404 db (boards db !! board_id) in
  let* owner := related db (users db !! user_id board) in
  if negb (bool_decide (user_id board = cu.1))
  then reply db ["⚠️ Unauthorized action."] (Redirect ep_dashboard)
  else
    committed (session_delete_board db board_id)
      ["🗑️ Board deleted successfully!"] [refresh_dashboard]
      (Redirect ep_dashboard).

(** ** View board *)

Definition view_board (board_id : N) (env : Env) (req : Request) (db : DB)
    : Outcome :=
  let* cu := login_required db req in
  let* board := get_or_404 db (boards db !! board_id) in
  let* owner := related db (users db !! user_id board) in
  if negb (bool_decide (user_id board = cu.1))
     && negb (is_collaborator db board_id cu.1)
  then reply db ["Access denied."] (Redirect ep_dashboard)
  else reply db [] (render_template env "board.html").

(** ** Collaborators *)

Definition add_collaborator (board_id : N) (env : Env) (req : Request) (db : DB)
    : Outcome :=
  let* cu := login_required db req in
  let* board := get_or_404 db (boards db !! board_id) in
  let* owner := related db (users db !! user_id board) in
  if negb (bool_decide (user_id board = cu.1))
  then reply db ["Only board owners can add collaborators."]
             (Redirect (ep_view_board board_id))
  else
    let* raw := form_item db req "username" in
    let uname := strip P raw in
    match first_by_username db uname with
    | None => reply db ["❌ User not found!"] (Redirect (ep_view_board board_id))
    | Some (uid, user) =>
        if bool_decide (uid = user_id board) || is_collaborator db board_id uid
        then reply db ["⚠️ User is already a collaborator or owner."]
                   (Redirect (ep_view_board board_id))
        else
          committed
            (mkDB (users db) (boards db) (lists db) (cards db)
                  ({[ (board_id, uid) ]} ∪ board_collaborators db))
            ["✅ " ++ uname ++ " added as collaborator!"]
            [refresh_board board_id]
            (Redirect (ep_view_board board_id))
    end.

(** ** List CRUD *)

Definition add_list (board_id : N) (env : Env) (req : Request) (db : DB)
    : Outcome :=
  let* _ := login_required db req in
  let* name := form_item db req "list_name" in
  let new_list := mkList name board_id in
  let* _ := bind_fk db (boards db) board_id in
  let* lid := insert_row db env (lists db) (fk_ok P (boards db) board_id) in
  committed
    (mkDB (users db) (boards db) (<[lid := new_list]> (lists db)) (cards db)
          (board_collaborators db))
    ["✅ List added successfully!"] [refresh_board board_id]
    (Redirect (ep_view_board board_id)).

Definition update_list (list_id : N) (env : Env) (req : Request) (db : DB)
    : Outcome :=
  let* _ := login_required db req in
  let* list_item := get_or_404 db (lists db !! list_id) in
  let* name := form_item db req "list_name" in
  let list_item' := mkList name (board_id list_item) in
  committed
    (mkDB (users db) (boards db) (<[list_id := list_item']> (lists db))
          (cards db) (board_collaborators db))
    ["✅ List updated successfully!"] [refresh_board (board_id list_item)]
    (Redirect (ep_view_board (board_id list_item))).

(** [db.session.delete(list_item)]: the list and, through the cascade of
    [List.cards], its cards. *)
Definition session_delete_list (db : DB) (lid : N) : DB :=
  mkDB (users db) (boards db)
       (delete lid (lists db))
       (filter (λ r, list_id r.2 ≠ lid) (cards db))
       (board_collaborators db).

Definition delete_list (list_id : N) (env : Env) (req : Request) (db : DB)
    : Outcome :=
  let* _ := login_required db req in
  let* list_item := get_or_404 db (lists db !! list_id) in
  let board_id := board_id list_item in
  committed (session_delete_list db list_id)
    ["🗑️ List deleted successfully!"] [refresh_board board_id]
    (Redirect (ep_view_board board_id)).

(** ** Card CRUD *)

(** [request.form.get('card_description', '')] *)
Definition card_description (req : Request) : string :=
  default EmptyString (form req !! "card_description").

Definition add_card (list_id : N) (env : Env) (req : Request) (db : DB)
    : Outcome :=
  let* _ := login_required db req in
  let* title := form_item db req "card_title" in
  let description := card_description req in
  let new_card := mkCard title (Some description) 0 (utcnow env) list_id in
  let* _ := bind_fk db (lists db) list_id in
  let* cid := insert_row db env (cards db) (fk_ok P (lists db) list_id) in
  let board_id :=
    match board_of_card db new_card with
    | Some bid => bid
    | None => list_id        (* except Exception: board_id = list_id *)
    end in
  committed
    (mkDB (users db) (boards db) (lists db) (<[cid := new_card]> (cards db))
          (board_collaborators db))
    ["✅ Card added successfully!"] [refresh_board board_id]
    (RedirectUrl (referrer req)).

Definition update_card (card_id : N) (env : Env) (req : Request) (db : DB)
    : Outcome :=
  let* _ := login_required db req in
  let* card := get_or_404 db (cards db !! card_id) in
  let* title := form_item db req "card_title" in
  let card' := mkCard title (Some (card_description req)) (position card)
                      (card_date_created card) (list_id card) in
  let db' := mkDB (users db) (boards db) (lists db)
                  (<[card_id := card']> (cards db)) (board_collaborators db) in
  (* committed and flashed before [card.list.board_id] is evaluated *)
  match board_of_card db' card' with
  | Some bid =>
      committed db' ["✅ Card updated successfully!"] [refresh_board bid]
        (RedirectUrl (referrer req))
  | None =>
      committed db' ["✅ Card updated successfully!"] []
        (Unhandled "AttributeError")
  end.

Definition delete_card (card_id : N) (env : Env) (req : Request) (db : DB)
    : Outcome :=
  let* _ := login_required db req in
  let* card := get_or_404 db (cards db !! card_id) in
  let* board_id := related db (board_of_card db card) in
  committed
    (mkDB (users db) (boards db) (lists db) (delete card_id (cards db))
          (board_collaborators db))
    ["🗑️ Card deleted successfully!"] [refresh_board board_id]
    (RedirectUrl (referrer req)).

(** ** Card move *)

(** [data.get('new_position', 0)] *)
Definition new_position (req : Request) : Z :=
  default 0%Z (get_json req !! "new_position").

Definition move_card (card_id new_list_id : N) (env : Env) (req : Request)
    (db : DB) : Outcome :=
  let* cu := login_required db req in
  let new_position := new_position req in
  let* card := get_or_404 db (cards db !! card_id) in
  let* new_list := get_or_404 db (lists db !! new_list_id) in
  let* board := related db (boards db !! board_id new_list) in
  let* owner := related db (users db !! user_id board) in
  if negb (bool_decide (user_id board = cu.1))
     && negb (is_collaborator db (board_id new_list) cu.1)
  then reply db [] (Jsonify [("error", "Unauthorized")] 403)
  else if negb (int_ok new_position)
  then reply db [] (Unhandled "OverflowError")   (* raised by the commit *)
  else
    let card' := mkCard (title card) (description card) new_position
                        (card_date_created card) new_list_id in
    committed
      (mkDB (users db) (boards db) (lists db) (<[card_id := card']> (cards db))
            (board_collaborators db))
      []
      [mkEvent "card_moved"
         [("card_id", card_id); ("new_list_id", new_list_id);
          ("board_id", board_id new_list)]
         (board_room (board_id new_list))]
      (Jsonify [("message", "Card moved successfully")] 200).

(** ** The URL map *)

Inductive Route :=
  | route_home
  | route_register
  | route_login
  | route_logout
  | route_dashboard
  | route_create_board
  | route_update_board (board_id : N)
  | route_delete_board (board_id : N)
  | route_view_board (board_id : N)
  | route_add_collaborator (board_id : N)
  | route_add_list (board_id : N)
  | route_update_list (list_id : N)
  | route_delete_list (list_id : N)
  | route_add_card (list_id : N)
  | route_update_card (card_id : N)
  | route_delete_card (card_id : N)
  | route_move_card (card_id new_list_id : N).

Definition dispatch (r : Route) : Env → Request → DB → Outcome :=
  match r with
  | route_home => home
  | route_register => register
  | route_login => login
  | route_logout => logout
  | route_dashboard => dashboard
  | route_create_board => create_board
  | route_update_board b => update_board b
  | route_delete_board b => delete_board b
  | route_view_board b => view_board b
  | route_add_collaborator b => add_collaborator b
  | route_add_list b => add_list b
  | route_update_list l => update_list l
  | route_delete_list l => delete_list l
  | route_add_card l => add_card l
  | route_update_card c => update_card c
  | route_delete_card c => delete_card c
  | route_move_card c l => move_card c l
  end.

(** The databases the application can produce: any sequence of requests
    served from the empty database.  [/upload], [/uploads/...] and the
    Socket.IO handlers never touch [db] and are left out. *)
Inductive reachable : DB → Prop :=
  | reachable_init : reachable empty_db
  | reachable_step db r env req :
      reachable db → reachable (db_after (dispatch r env req db)).

End Views.

(** ** Properties of the tables *)

(** No row of [users] has this username. *)
Definition unknown_username (db : DB) (uname : string) : Prop :=
  ∀ k u, users db !! k = Some u → username u ≠ uname.

(** The owner of a board is not among its collaborators. *)
Definition owner_not_collaborator (db : DB) : Prop :=
  ∀ bid b, boards db !! bid = Some b →
    (bid, user_id b) ∉ board_collaborators db.

(** Every association row belongs to an existing board and names a user
    other than its owner. *)
Definition collaborators_ok (db : DB) : Prop :=
  ∀ bid uid, (bid, uid) ∈ board_collaborators db →
    ∃ b, boards db !! bid = Some b ∧ user_id b ≠ uid.

(** Every board's owner is a row of [users]. *)
Definition owners_exist (db : DB) : Prop :=
  ∀ bid b, boards db !! bid = Some b → is_Some (users db !! user_id b).

(** The card after a move, and the event the move emits. *)
Definition moved (c : Card) (new_list_id : N) (pos : Z) : Card :=
  mkCard (title c) (description c) pos (card_date_created c) new_list_id.

Definition card_moved (card_id new_list_id bid : N) : Event :=
  mkEvent "card_moved"
    [("card_id", card_id); ("new_list_id", new_list_id); ("board_id", bid)]
    (board_room bid).

(** The actor may write to the board: owner or collaborator. *)
Definition may_edit (db : DB) (bid : N) (b : Board) (uid : N) : Prop :=
  user_id b = uid ∨ (bid, uid) ∈ board_collaborators db.

(** The answers [app.py] gives to a user who lacks the right: the 403 of
    [move_card], and the three flashes of the board views. *)
Definition forbidden (o : Outcome) : Prop :=
  (∃ body, response o = Jsonify body 403)
  ∨ "⚠️ Unauthorized action." ∈ flashed o
  ∨ "Access denied." ∈ flashed o
  ∨ "Only board owners can add collaborators." ∈ flashed o.

(** The five ways the [users], [boards] and [board_collaborators] tables
    change over one request. *)
Inductive board_change (db db' : DB) : Prop :=
  | change_none :
      users db ⊆ users db' →
      boards db' = boards db →
      board_collaborators db' = board_collaborators db →
      board_change db db'
  | change_create k nb :
      boards db !! k = None →
      is_Some (users db !! user_id nb) →
      users db' = users db →
      boards db' = <[k := nb]> (boards db) →
      board_collaborators db' = board_collaborators db →
      board_change db db'
  | change_rename bid b b' :
      boards db !! bid = Some b →
      user_id b' = user_id b →
      users db' = users db →
      boards db' = <[bid := b']> (boards db) →
      board_collaborators db' = board_collaborators db →
      board_change db db'
  | change_delete bid :
      users db' = users db →
      boards db' = delete bid (boards db) →
      board_collaborators db' = filter (λ r, r.1 ≠ bid) (board_collaborators db) →
      board_change db db'
  | change_share bid b uid :
      boards db !! bid = Some b →
      uid ≠ user_id b →
      users db' = users db →
      boards db' = boards db →
      board_collaborators db' = {[ (bid, uid) ]} ∪ board_collaborators db →
      board_change db db'.

(** ** A small instance for the examples

    A stand-in for werkzeug (the hash is the password behind a prefix and
    the salt; the check tries the two salts in use), an engine that does not
    enforce foreign keys unless [fk] is set, and the
    database of the specification's scenario: alice owns board 1 with lists
    1 and 3 and card 5, bob collaborates on it, carol owns board 2. *)
Definition toy_platform (fk : bool) : Platform :=
  mkPlatform fk
    (λ salt pwd, "toy$" ++ salt ++ "$" ++ pwd)
    (λ h pwd, existsb (λ salt, bool_decide (h = "toy$" ++ salt ++ "$" ++ pwd))
                      ["s1"; "s2"])
    (λ s, s).

Definition scenario_db : DB :=
  mkDB
    (list_to_map [(1%N, mkUser "alice" "toy$s1$wonderland" 100);
                  (2%N, mkUser "bob" "toy$s2$builder" 101);
                  (3%N, mkUser "carol" "toy$s1$singer" 102)])
    (list_to_map [(1%N, mkBoard "Sprint 1" 110 1);
                  (2%N, mkBoard "Private" 111 3)])
    (list_to_map [(1%N, mkList "Todo" 1); (3%N, mkList "Done" 1);
                  (4%N, mkList "Ideas" 2)])
    (list_to_map [(5%N, mkCard "Write spec" (Some "first draft") 0 120 1);
                  (6%N, mkCard "Review" (Some EmptyString) 1 121 1);
                  (7%N, mkCard "Secret" (Some EmptyString) 0 122 4)])
    {[ (1%N, 2%N) ]}.

Definition scenario_env : Env := mkEnv 10 "s1" 200 7.

(** A request of the logged-in user [uid]. *)
Definition post_as (uid : N) (fields : list (string * string))
    (body : list (string * Z)) : Request :=
  mkRequest POST (list_to_map fields) (list_to_map body) (Some "/board/1")
            (Some uid).

(** ** Further properties of the tables *)

(** The views decorated with [@login_required]: all but [home], [register]
    and [login]. *)
Definition protected (r : Route) : bool :=
  match r with
  | route_home | route_register | route_login => false
  | _ => true
  end.

(** [User.username] is declared [unique=True]. *)
Definition usernames_unique (db : DB) : Prop :=
  ∀ k1 k2 u1 u2, users db !! k1 = Some u1 → users db !! k2 = Some u2 →
    username u1 = username u2 → k1 = k2.

(** Every foreign key resolves: a list has its board, a card its list, an
    association row its user. *)
Definition no_orphans (db : DB) : Prop :=
  (∀ lid l, lists db !! lid = Some l → is_Some (boards db !! board_id l))
  ∧ (∀ cid c, cards db !! cid = Some c → is_Some (lists db !! list_id c)).

Definition collaborators_exist (db : DB) : Prop :=
  ∀ bid uid, (bid, uid) ∈ board_collaborators db → is_Some (users db !! uid).

(** ** File upload

    [app.config['UPLOAD_FOLDER']] is a finite map from the file name under
    the folder to the bytes stored there.  werkzeug's [secure_filename] and
    [url_for('uploaded_file', filename=..., _external=True)] are library
    functions of the name: parameters. *)

Record FileStorage := mkFileStorage {
  filename : string;
  stream : string
}.

(** A multipart request: the request and its [request.files]. *)
Record UploadRequest := mkUploadRequest {
  upload_request : Request;
  files : gmap string FileStorage
}.

Section Upload.

Context (secure_filename : string → string).
Context (url_for_uploaded_file : string → string).

(** [f"{timestamp}_{filename}"], the timestamp printed in decimal. *)
Definition final_name (timestamp : Z) (fname : string) : string :=
  pretty timestamp ++ "_" ++ fname.

Definition upload_file (env : Env) (req : UploadRequest) (db : DB)
    (folder : gmap string string) : Outcome * gmap string string :=
  match login_required db (upload_request req) with
  | inl o => (o, folder)
  | inr _ =>
      match files req !! "file" with
      | None => (reply db [] (Jsonify [("error", "No file part")] 400), folder)
      | Some file =>
          match filename file with
          | EmptyString =>
              (reply db [] (Jsonify [("error", "No selected file")] 400), folder)
          | _ =>
              let fname := secure_filename (filename file) in
              let timestamp := utcnow env in
              let name := final_name timestamp fname in
              (reply db []
                 (Jsonify [("file_url", url_for_uploaded_file name)] 200),
               <[name := stream file]> folder)
          end
      end
  end.

(** [send_from_directory]: the bytes, or 404.  The view is not decorated. *)
Definition uploaded_file (fname : string) (folder : gmap string string)
    : Response + string :=
  match folder !! fname with
  | Some bytes => inr bytes
  | None => inl (Abort 404)
  end.

End Upload.

(** ** Socket.IO events

    The [data] of an event is a JSON object; its values are the scalars that
    have a Python truth value and a [str()]: [None], booleans, integers and
    strings. *)

Inductive JVal :=
  | JNone
  | JBool (b : bool)
  | JInt (z : Z)
  | JStr (s : string).

(** [bool(v)], as [if v:] and [if not v:] test it. *)
Definition truthy (v : JVal) : bool :=
  match v with
  | JNone => false
  | JBool b => b
  | JInt z => negb (z =? 0)%Z
  | JStr EmptyString => false
  | JStr _ => true
  end.

(** [str(v)], as an f-string formats it. *)
Definition str (v : JVal) : string :=
  match v with
  | JNone => "None"
  | JBool true => "True"
  | JBool false => "False"
  | JInt z => pretty z
  | JStr s => s
  end.

(** [emit(event, payload, room=room)] *)
Record Emit := mkEmit {
  emit_event : string;
  emit_payload : gmap string JVal;
  emit_room : string
}.

(** Which connection ([request.sid]) is in which room. *)
Definition Rooms : Type := gset (string * string).

Definition join_room (sid room : string) (rooms : Rooms) : Rooms :=
  {[ (sid, room) ]} ∪ rooms.

Definition leave_room (sid room : string) (rooms : Rooms) : Rooms :=
  rooms ∖ {[ (sid, room) ]}.

(** What a handler leaves: the rooms, the events it emitted, the exception
    it raised if any. *)
Record Handled := mkHandled {
  rooms_after : Rooms;
  sent : list Emit;
  raised : option string
}.

(** [f"board_{board_id}"] *)
Definition board_room_name (board_id : JVal) : string :=
  "board_" ++ str board_id.

Definition handle_join (sid : string) (data : gmap string JVal) (rooms : Rooms)
    : Handled :=
  match data !! "board_id" with
  | Some board_id =>
      let room := board_room_name board_id in
      mkHandled (join_room sid room rooms) [] None
  | None => mkHandled rooms [] (Some "KeyError")
  end.

Definition handle_leave (sid : string) (data : gmap string JVal) (rooms : Rooms)
    : Handled :=
  match data !! "board_id" with
  | Some board_id =>
      let room := board_room_name board_id in
      mkHandled (leave_room sid room rooms) [] None
  | None => mkHandled rooms [] (Some "KeyError")
  end.

(** [data.get('username', 'Anonymous')] *)
Definition declared_username (data : gmap string JVal) : JVal :=
  default (JStr "Anonymous") (data !! "username").

Definition handle_join_collab (sid : string) (data : gmap string JVal)
    (rooms : Rooms) : Handled :=
  let room := "collab_room" in
  let username := declared_username data in
  mkHandled (join_room sid room rooms)
    [mkEmit "message"
       (list_to_map
          [("username", JStr "System");
           ("message", JStr (str username ++ " joined the collaboration chat."))])
       room]
    None.

Definition handle_leave_collab (sid : string) (data : gmap string JVal)
    (rooms : Rooms) : Handled :=
  let room := "collab_room" in
  let username := declared_username data in
  mkHandled (leave_room sid room rooms)
    [mkEmit "message"
       (list_to_map
          [("username", JStr "System");
           ("message", JStr (str username ++ " left the collaboration chat."))])
       room]
    None.

(** [if v: payload[key] = v], for [v = data.get(key)]. *)
Definition copy_if_truthy (key : string) (data payload : gmap string JVal)
    : gmap string JVal :=
  match data !! key with
  | Some v => if truthy v then <[key := v]> payload else payload
  | None => payload
  end.

Definition handle_collab_message (sid : string) (data : gmap string JVal)
    (rooms : Rooms) : Handled :=
  let room := "collab_room" in
  let username := declared_username data in
  let payload := {[ "username" := username ]} in
  let payload := copy_if_truthy "message" data payload in
  let payload :=
    match data !! "file" with
    | Some file =>
        if truthy file
        then copy_if_truthy "filename" data (<["file" := file]> payload)
        else payload
    | None => payload
    end in
  mkHandled rooms [mkEmit "message" payload room] None.

Definition handle_board_message (sid : string) (data : gmap string JVal)
    (rooms : Rooms) : Handled :=
  match data !! "board_id" with
  | Some board_id =>
      if truthy board_id
      then
        let room := board_room_name board_id in
        let username := declared_username data in
        let message := default (JStr EmptyString) (data !! "message") in
        mkHandled rooms
          [mkEmit "board_message"
             (list_to_map [("board_id", board_id); ("username", username);
                           ("message", message)])
             room]
          None
      else mkHandled rooms [] None
  | None => mkHandled rooms [] None
  end.

(** The connections an emit reaches: the members of its room. *)
Definition receives (rooms : Rooms) (sid : string) (e : Emit) : Prop :=
  (sid, emit_room e) ∈ rooms.

(** The same for the events of the views: [socketio.emit] with
    [room=f'board_{board_id}'], or with no room, to every client. *)
Definition event_reaches (rooms : Rooms) (sid : string) (e : Event) : Prop :=
  match event_room e with
  | all_clients => True
  | board_room bid => (sid, board_room_name (JInt (Z.of_N bid))) ∈ rooms
  end.

(** [data.get(key)] when it is there and true, as [if v:] lets it through. *)
Definition kept (data : gmap string JVal) (key : string) : option JVal :=
  v ← data !! key; if truthy v then Some v else None.

(** The character [a] does not occur in [s]. *)
Fixpoint free_of (a : ascii) (s : string) : Prop :=
  match s with
  | EmptyString => True
  | String c s' => c ≠ a ∧ free_of a s'
  end.

(** * Proofs *)

(** ** Queries *)

Lemma first_by_username_Some db uname k u :
  first_by_username db uname = Some (k, u) →
  users db !! k = Some u ∧ username u = uname.
Proof.
  unfold first_by_username. intros Hhd.
  apply head_Some_elem_of, list_elem_of_filter in Hhd as [Hname Hin].
  by apply elem_of_map_to_list in Hin.
Qed.

Lemma first_by_username_None db uname :
  first_by_username db uname = None ↔ unknown_username db uname.
Proof.
  unfold first_by_username, unknown_username. rewrite head_None. split.
  - intros Hnil k u Hk Hname.
    eapply (filter_nil_not_elem_of _ _ (k, u)); [exact Hnil | exact Hname |].
    by apply elem_of_map_to_list.
  - intros Hall. destruct (filter _ _) as [|[k u] rest] eqn:Hf; [done|].
    assert ((k, u) ∈ filter (λ r, username r.2 = uname) (map_to_list (users db)))
      as Hin by (rewrite Hf; left).
    apply list_elem_of_filter in Hin as [Hname Hin].
    apply elem_of_map_to_list in Hin. by destruct (Hall k u).
Qed.

Lemma first_by_username_known db uname k u :
  users db !! k = Some u → username u = uname →
  ∃ k' u', first_by_username db uname = Some (k', u').
Proof.
  intros Hk Hname. destruct (first_by_username db uname) as [[k' u']|] eqn:Hf.
  - eauto.
  - apply first_by_username_None in Hf. by destruct (Hf k u).
Qed.

Lemma current_user_row db req uid u :
  current_user db req = Some (uid, u) →
  session_user_id req = Some uid ∧ users db !! uid = Some u.
Proof.
  unfold current_user. destruct (session_user_id req) as [s|]; simpl; [|done].
  destruct (users db !! s) eqn:Hs; simpl; [|done].
  intros [= <- <-]. done.
Qed.

Lemma login_required_ok db req cu :
  current_user db req = Some cu → login_required db req = inr cu.
Proof. unfold login_required. by intros ->. Qed.

(** ** Auth *)

(** C4. A registration under a username some row of [users] already has is
    answered with the flash "Username already exists!" and a redirect back
    to the form, and the database is the one before the request: the
    existing row (its id and its stored hash) is untouched and no row is
    added.  A registration under an unused username, with the key the engine
    assigns unused, adds exactly one row, whose [password] column is the
    output of [generate_password_hash] on the password; it is the plaintext
    only if that output is. *)
Theorem register_conflict_and_hash (P : Platform) env req db uname pwd :
  method req = POST →
  form req !! "username" = Some uname →
  form req !! "password" = Some pwd →
  ((∃ k u, users db !! k = Some u ∧ username u = uname) →
     register P env req db
       = reply db ["Username already exists!"] (Redirect ep_register))
  ∧ (unknown_username db uname → users db !! new_id env = None →
       let stored := generate_password_hash P (salt env) pwd in
       register P env req db
         = committed
             (mkDB (<[new_id env := mkUser uname stored (utcnow env)]> (users db))
                   (boards db) (lists db) (cards db) (board_collaborators db))
             ["Registration successful! Please login."] [] (Redirect ep_login)
       ∧ (stored ≠ pwd →
          ∀ k u, users (db_after (register P env req db)) !! k = Some u →
                 username u = uname → password u ≠ pwd)).
Proof.
  intros Hm Hu Hp. unfold register, form_item. rewrite Hm, Hu, Hp. simpl.
  split.
  - intros (k & u & Hk & Hname).
    destruct (first_by_username_known db uname k u Hk Hname) as (k' & u' & ->).
    done.
  - intros Hnew Hfree. apply first_by_username_None in Hnew as Hnone.
    rewrite Hnone. unfold insert_row. rewrite Hfree. simpl. split; [done|].
    intros Hhash k u Hk Hname. simpl in Hk.
    destruct (decide (k = new_id env)) as [->|Hne].
    + rewrite lookup_insert_eq in Hk. by injection Hk as <-.
    + rewrite lookup_insert_ne in Hk by done. by destruct (Hnew k u).
Qed.

Lemma register_conflict_and_hash_witness :
  register (toy_platform false) scenario_env
      (post_as 2 [("username", "alice"); ("password", "hunter2")] [])
      scenario_db
    = reply scenario_db ["Username already exists!"] (Redirect ep_register)
  ∧ users (db_after (register (toy_platform false) scenario_env
        (post_as 2 [("username", "dave"); ("password", "hunter2")] [])
        scenario_db)) !! 10%N
    = Some (mkUser "dave" "toy$s1$hunter2" 200).
Proof.
  split.
  - apply (proj1 (register_conflict_and_hash (toy_platform false) scenario_env
             (post_as 2 [("username", "alice"); ("password", "hunter2")] [])
             scenario_db "alice" "hunter2" eq_refl eq_refl eq_refl)).
    exists 1%N, (mkUser "alice" "toy$s1$wonderland" 100). split; reflexivity.
  - assert (unknown_username scenario_db "dave") as Hnew.
    { apply first_by_username_None. reflexivity. }
    destruct (proj2 (register_conflict_and_hash (toy_platform false) scenario_env
             (post_as 2 [("username", "dave"); ("password", "hunter2")] [])
             scenario_db "dave" "hunter2" eq_refl eq_refl eq_refl) Hnew eq_refl)
      as [-> _].
    reflexivity.
Defined.

(** C8. A failed login shows the same thing whatever made it fail: when no
    row has the username, and when a row has it but the password does not
    verify against its hash, the outcome is the flash "Invalid credentials!"
    over the login page, nothing is written and no session is opened; two
    such attempts served in the same environment have equal outcomes. *)
Theorem login_failure_indistinguishable (P : Platform) env db req1 req2
    u1 p1 u2 p2 :
  method req1 = POST → form req1 !! "username" = Some u1 →
  form req1 !! "password" = Some p1 →
  method req2 = POST → form req2 !! "username" = Some u2 →
  form req2 !! "password" = Some p2 →
  unknown_username db u1 →
  (∃ k u, users db !! k = Some u ∧ username u = u2) →
  (∀ k u, users db !! k = Some u → username u = u2 →
          check_password_hash P (password u) p2 = false) →
  login P env req1 db
    = reply db ["Invalid credentials!"] (render_template env "login.html")
  ∧ login P env req2 db = login P env req1 db.
Proof.
  intros Hm1 Hu1 Hp1 Hm2 Hu2 Hp2 Hunknown (k & u & Hk & Hname) Hwrong.
  assert (login P env req1 db
    = reply db ["Invalid credentials!"] (render_template env "login.html")) as E1.
  { unfold login, form_item. rewrite Hm1, Hu1, Hp1. simpl.
    apply first_by_username_None in Hunknown. by rewrite Hunknown. }
  split; [exact E1|]. rewrite E1.
  unfold login, form_item. rewrite Hm2, Hu2, Hp2. simpl.
  destruct (first_by_username_known db u2 k u Hk Hname) as (k' & u' & Hf).
  rewrite Hf. apply first_by_username_Some in Hf as [Hk' Hname'].
  by rewrite (Hwrong k' u' Hk' Hname').
Qed.

Lemma login_failure_indistinguishable_witness :
  login (toy_platform false) scenario_env
      (post_as 2 [("username", "mallory"); ("password", "guess")] [])
      scenario_db
    = reply scenario_db ["Invalid credentials!"]
        (Render "login.html" "Dream big. Start small. Act now.")
  ∧ login (toy_platform false) scenario_env
      (post_as 2 [("username", "alice"); ("password", "guess")] [])
      scenario_db
    = login (toy_platform false) scenario_env
      (post_as 2 [("username", "mallory"); ("password", "guess")] [])
      scenario_db.
Proof.
  apply (login_failure_indistinguishable (toy_platform false) scenario_env
           scenario_db _ _ "mallory" "guess" "alice" "guess");
    try reflexivity.
  - apply first_by_username_None. reflexivity.
  - exists 1%N, (mkUser "alice" "toy$s1$wonderland" 100). split; reflexivity.
  - intros k u Hk Hname.
    assert (first_by_username scenario_db "alice"
              = Some (1%N, mkUser "alice" "toy$s1$wonderland" 100)) as Hf
      by reflexivity.
    destruct (decide (k = 1%N)) as [->|Hne].
    + vm_compute in Hk. injection Hk as <-. reflexivity.
    + exfalso. revert Hk Hname. unfold scenario_db. simpl.
      rewrite !lookup_insert. repeat case_decide; try congruence;
        intros [= <-]; done.
Defined.

(** ** Boards *)

Lemma owner_is_current_user db req cu b :
  current_user db req = Some cu → user_id b = cu.1 →
  users db !! user_id b = Some cu.2.
Proof.
  destruct cu as [uid u]. intros Hcu ->. by apply current_user_row in Hcu as [_ ?].
Qed.

(** C2. On a board whose owner is another user (a collaborator included:
    the association table is not consulted), [update_board] and
    [delete_board] flash "Unauthorized action." and redirect to the
    dashboard, and the database, hence the board and its name, is as before.
    For the owner, the rename (given the [board_name] field) and the delete
    go through: the board carries the new name, respectively is gone. *)
Theorem board_rename_delete_owner_only env req db bid b cu :
  current_user db req = Some cu →
  boards db !! bid = Some b →
  (user_id b ≠ cu.1 → is_Some (users db !! user_id b) →
     update_board bid env req db
       = reply db ["⚠️ Unauthorized action."] (Redirect ep_dashboard)
     ∧ delete_board bid env req db
       = reply db ["⚠️ Unauthorized action."] (Redirect ep_dashboard))
  ∧ (user_id b = cu.1 →
     (∀ name, form req !! "board_name" = Some name →
        update_board bid env req db
          = committed
              (mkDB (users db)
                    (<[bid := mkBoard name (board_date_created b) (user_id b)]>
                       (boards db))
                    (lists db) (cards db) (board_collaborators db))
              ["✅ Board renamed successfully!"] [refresh_dashboard]
              (Redirect ep_dashboard))
     ∧ delete_board bid env req db
         = committed (session_delete_board db bid)
             ["🗑️ Board deleted successfully!"] [refresh_dashboard]
             (Redirect ep_dashboard)
     ∧ boards (db_after (delete_board bid env req db)) !! bid = None).
Proof.
  intros Hcu Hb. unfold update_board, delete_board.
  rewrite (login_required_ok _ _ _ Hcu), Hb. simpl. split.
  - intros Hne [o Ho]. rewrite Ho. simpl.
    rewrite bool_decide_eq_false_2 by done. done.
  - intros Heq. rewrite (owner_is_current_user _ _ _ _ Hcu Heq). simpl.
    rewrite bool_decide_eq_true_2 by done. simpl. split; [|split; [done|]].
    + intros name Hname. unfold form_item. by rewrite Hname.
    + simpl. apply lookup_delete_eq.
Qed.

Lemma board_rename_delete_owner_only_witness :
  update_board 1 scenario_env (post_as 2 [("board_name", "Mine now")] [])
      scenario_db
    = reply scenario_db ["⚠️ Unauthorized action."] (Redirect ep_dashboard)
  ∧ boards (db_after (update_board 1 scenario_env
        (post_as 1 [("board_name", "Sprint 2")] []) scenario_db)) !! 1%N
    = Some (mkBoard "Sprint 2" 110 1).
Proof.
  split.
  - apply (proj1 (board_rename_delete_owner_only scenario_env
      (post_as 2 [("board_name", "Mine now")] []) scenario_db 1
      (mkBoard "Sprint 1" 110 1) (2%N, mkUser "bob" "toy$s2$builder" 101)
      eq_refl eq_refl)).
    + discriminate.
    + eexists. reflexivity.
  - rewrite (proj1 (proj2 (board_rename_delete_owner_only scenario_env
      (post_as 1 [("board_name", "Sprint 2")] []) scenario_db 1
      (mkBoard "Sprint 1" 110 1) (1%N, mkUser "alice" "toy$s1$wonderland" 100)
      eq_refl eq_refl) eq_refl) "Sprint 2" eq_refl).
    reflexivity.
Defined.

Lemma session_delete_board_lists db bid lid l :
  lists db !! lid = Some l → board_id l = bid →
  lists (session_delete_board db bid) !! lid = None.
Proof.
  intros Hl Hb. simpl. apply map_lookup_filter_None. right.
  intros l' Hl'. simpl. rewrite Hl in Hl'. injection Hl' as <-. tauto.
Qed.

Lemma session_delete_board_cards db bid cid c l :
  cards db !! cid = Some c → lists db !! list_id c = Some l →
  board_id l = bid →
  cards (session_delete_board db bid) !! cid = None.
Proof.
  intros Hc Hl Hb. simpl. apply map_lookup_filter_None. right.
  intros c' Hc'. simpl. rewrite Hc in Hc'. injection Hc' as <-.
  unfold board_of_card. rewrite Hl. simpl. rewrite Hb. tauto.
Qed.

Lemma session_delete_board_collaborators db bid uid :
  (bid, uid) ∉ board_collaborators (session_delete_board db bid).
Proof. simpl. rewrite elem_of_filter. simpl. tauto. Qed.

(** C3. When the owner deletes a board, the request succeeds and in the
    database it leaves behind the board, each list that had its id as
    [board_id], each card whose list was one of those, and each row of
    [board_collaborators] for it are gone; a later request of a logged-in
    user for one of those lists or cards is answered 404. *)
Theorem delete_board_cascades env req db bid b cu :
  current_user db req = Some cu →
  boards db !! bid = Some b →
  user_id b = cu.1 →
  let after := delete_board bid env req db in
  let db' := db_after after in
  response after = Redirect ep_dashboard
  ∧ boards db' !! bid = None
  ∧ (∀ lid l, lists db !! lid = Some l → board_id l = bid →
       lists db' !! lid = None
       ∧ ∀ env' req', is_Some (current_user db' req') →
           response (update_list lid env' req' db') = Abort 404
           ∧ response (delete_list lid env' req' db') = Abort 404)
  ∧ (∀ cid c l, cards db !! cid = Some c →
       lists db !! list_id c = Some l → board_id l = bid →
       cards db' !! cid = None
       ∧ ∀ env' req', is_Some (current_user db' req') →
           response (update_card cid env' req' db') = Abort 404
           ∧ response (delete_card cid env' req' db') = Abort 404
           ∧ ∀ dest, response (move_card cid dest env' req' db') = Abort 404)
  ∧ (∀ uid, (bid, uid) ∉ board_collaborators db').
Proof.
  intros Hcu Hb Hown after db'.
  assert (after = committed (session_delete_board db bid)
            ["🗑️ Board deleted successfully!"] [refresh_dashboard]
            (Redirect ep_dashboard)) as Hafter.
  { subst after. unfold delete_board.
    rewrite (login_required_ok _ _ _ Hcu), Hb. simpl.
    rewrite (owner_is_current_user _ _ _ _ Hcu Hown). simpl.
    by rewrite bool_decide_eq_true_2. }
  assert (db' = session_delete_board db bid) as Hdb' by (subst db'; by rewrite Hafter).
  clearbody db' after. subst db' after.
  split; [done|]. split; [apply lookup_delete_eq|].
  split; [|split].
  - intros lid l Hl Hbid.
    pose proof (session_delete_board_lists db bid lid l Hl Hbid) as Hgone.
    split; [done|]. intros env' req' [cu' Hcu'].
    unfold update_list, delete_list.
    rewrite (login_required_ok _ _ _ Hcu'), Hgone. done.
  - intros cid c l Hc Hl Hbid.
    pose proof (session_delete_board_cards db bid cid c l Hc Hl Hbid) as Hgone.
    split; [done|]. intros env' req' [cu' Hcu'].
    unfold update_card, delete_card, move_card.
    rewrite (login_required_ok _ _ _ Hcu'), Hgone. done.
  - apply session_delete_board_collaborators.
Qed.

Lemma delete_board_cascades_witness :
  let db' := db_after (delete_board 1 scenario_env (post_as 1 [] []) scenario_db) in
  lists db' !! 3%N = None ∧ cards db' !! 5%N = None
  ∧ ((1%N, 2%N) ∉ board_collaborators db')
  ∧ response (update_card 5 scenario_env (post_as 2 [("card_title", "x")] []) db')
    = Abort 404.
Proof.
  intros db'.
  destruct (delete_board_cascades scenario_env (post_as 1 [] []) scenario_db 1
      (mkBoard "Sprint 1" 110 1) (1%N, mkUser "alice" "toy$s1$wonderland" 100)
      eq_refl eq_refl eq_refl) as (_ & _ & Hlists & Hcards & Hcollab).
  split; [|split; [|split]].
  - apply (Hlists 3%N (mkList "Done" 1)); reflexivity.
  - apply (Hcards 5%N (mkCard "Write spec" (Some "first draft") 0 120 1)
             (mkList "Todo" 1)); reflexivity.
  - apply Hcollab.
  - apply (Hcards 5%N (mkCard "Write spec" (Some "first draft") 0 120 1)
             (mkList "Todo" 1)); try reflexivity.
    eexists. reflexivity.
Defined.

(** ** Moving a card *)

Lemma move_card_allowed env req db cid lid cu c l b :
  current_user db req = Some cu →
  cards db !! cid = Some c →
  lists db !! lid = Some l →
  boards db !! board_id l = Some b →
  is_Some (users db !! user_id b) →
  may_edit db (board_id l) b cu.1 →
  int_ok (new_position req) = true →
  move_card cid lid env req db
    = committed
        (mkDB (users db) (boards db) (lists db)
              (<[cid := moved c lid (new_position req)]> (cards db))
              (board_collaborators db))
        [] [card_moved cid lid (board_id l)]
        (Jsonify [("message", "Card moved successfully")] 200).
Proof.
  intros Hcu Hc Hl Hb [o Ho] Hmay Hpos. unfold move_card.
  rewrite (login_required_ok _ _ _ Hcu), Hc, Hl. simpl. rewrite Hb. simpl.
  rewrite Ho. simpl. rewrite Hpos. simpl. unfold is_collaborator.
  destruct Hmay as [Hown|Hcol].
  - by rewrite (bool_decide_eq_true_2 _ Hown).
  - rewrite (bool_decide_eq_true_2 _ Hcol). simpl. by rewrite andb_false_r.
Qed.

Lemma move_card_overflow env req db cid lid cu c l b :
  current_user db req = Some cu →
  cards db !! cid = Some c →
  lists db !! lid = Some l →
  boards db !! board_id l = Some b →
  is_Some (users db !! user_id b) →
  may_edit db (board_id l) b cu.1 →
  int_ok (new_position req) = false →
  move_card cid lid env req db = reply db [] (Unhandled "OverflowError").
Proof.
  intros Hcu Hc Hl Hb [o Ho] Hmay Hpos. unfold move_card.
  rewrite (login_required_ok _ _ _ Hcu), Hc, Hl. simpl. rewrite Hb. simpl.
  rewrite Ho. simpl. rewrite Hpos. simpl. unfold is_collaborator.
  destruct Hmay as [Hown|Hcol].
  - by rewrite (bool_decide_eq_true_2 _ Hown).
  - rewrite (bool_decide_eq_true_2 _ Hcol). simpl. by rewrite andb_false_r.
Qed.

Lemma move_card_denied env req db cid lid cu c l b :
  current_user db req = Some cu →
  cards db !! cid = Some c →
  lists db !! lid = Some l →
  boards db !! board_id l = Some b →
  is_Some (users db !! user_id b) →
  ¬ may_edit db (board_id l) b cu.1 →
  move_card cid lid env req db
    = reply db [] (Jsonify [("error", "Unauthorized")] 403).
Proof.
  intros Hcu Hc Hl Hb [o Ho] Hmay. unfold move_card.
  rewrite (login_required_ok _ _ _ Hcu), Hc, Hl. simpl. rewrite Hb. simpl.
  rewrite Ho. simpl. unfold is_collaborator, may_edit in *.
  rewrite !bool_decide_eq_false_2 by tauto. done.
Qed.

(** A move that is answered 200 went through every check. *)
Lemma move_card_success_inv env req db cid lid :
  response (move_card cid lid env req db)
    = Jsonify [("message", "Card moved successfully")] 200 →
  ∃ cu c l b,
    current_user db req = Some cu ∧ cards db !! cid = Some c
    ∧ lists db !! lid = Some l ∧ boards db !! board_id l = Some b
    ∧ is_Some (users db !! user_id b) ∧ may_edit db (board_id l) b cu.1
    ∧ int_ok (new_position req) = true.
Proof.
  unfold move_card, login_required.
  destruct (current_user db req) as [cu|] eqn:Hcu; simpl; [|done].
  destruct (cards db !! cid) as [c|] eqn:Hc; simpl; [|done].
  destruct (lists db !! lid) as [l|] eqn:Hl; simpl; [|done].
  destruct (boards db !! board_id l) as [b|] eqn:Hb; simpl; [|done].
  destruct (users db !! user_id b) as [o|] eqn:Ho; simpl; [|done].
  intros Hresp. exists cu, c, l, b.
  destruct (int_ok (new_position req)) eqn:Hpos; simpl in Hresp;
    [|by destruct (_ && _)].
  repeat split; eauto.
  unfold may_edit, is_collaborator in *.
  destruct (decide (user_id b = cu.1)) as [|Hn]; [by left|].
  destruct (decide ((board_id l, cu.1) ∈ board_collaborators db)) as [|Hn'];
    [by right|].
  rewrite !bool_decide_eq_false_2 in Hresp by done. done.
Qed.

(** C1. A logged-in user who neither owns the board of the destination
    list nor collaborates on it gets the JSON answer
    [{"error": "Unauthorized"}] with status 403, not a redirect, and the
    database is as before: the card keeps its [list_id] and [position]. *)
Theorem move_card_unauthorized env req db cid lid cu c l b :
  current_user db req = Some cu →
  cards db !! cid = Some c →
  lists db !! lid = Some l →
  boards db !! board_id l = Some b →
  is_Some (users db !! user_id b) →
  user_id b ≠ cu.1 →
  (board_id l, cu.1) ∉ board_collaborators db →
  let after := move_card cid lid env req db in
  after = reply db [] (Jsonify [("error", "Unauthorized")] 403)
  ∧ (∀ ep, response after ≠ Redirect ep)
  ∧ ∃ c', cards (db_after after) !! cid = Some c'
          ∧ list_id c' = list_id c ∧ position c' = position c.
Proof.
  intros Hcu Hc Hl Hb Ho Hown Hcol after. subst after.
  rewrite (move_card_denied env req db cid lid cu c l b) by
    (try done; unfold may_edit; tauto).
  split; [done|]. split; [done|]. exists c. done.
Qed.

Lemma move_card_unauthorized_witness :
  move_card 5 3 scenario_env (post_as 3 [] [("new_position", 2%Z)]) scenario_db
    = reply scenario_db [] (Jsonify [("error", "Unauthorized")] 403).
Proof.
  apply (move_card_unauthorized scenario_env
           (post_as 3 [] [("new_position", 2%Z)]) scenario_db 5 3
           (3%N, mkUser "carol" "toy$s1$singer" 102)
           (mkCard "Write spec" (Some "first draft") 0 120 1)
           (mkList "Done" 1) (mkBoard "Sprint 1" 110 1)
           eq_refl eq_refl eq_refl eq_refl).
  - eexists. reflexivity.
  - discriminate.
  - vm_compute. intros H. discriminate H.
Defined.

(** C7. A move that succeeds writes the destination list's id and the
    [new_position] of the body, as sent, into the card and nothing else:
    the card keeps its title, description and creation date, every other
    card is the row it was (no sibling is renumbered, whatever positions
    they hold), and the users, boards, lists and collaborators are
    untouched. *)
Theorem move_card_writes_verbatim env req db cid lid p :
  get_json req !! "new_position" = Some p →
  response (move_card cid lid env req db)
    = Jsonify [("message", "Card moved successfully")] 200 →
  let db' := db_after (move_card cid lid env req db) in
  (∃ c, cards db !! cid = Some c
        ∧ cards db' !! cid
          = Some (mkCard (title c) (description c) p (card_date_created c) lid))
  ∧ (∀ other, other ≠ cid → cards db' !! other = cards db !! other)
  ∧ users db' = users db ∧ boards db' = boards db ∧ lists db' = lists db
  ∧ board_collaborators db' = board_collaborators db.
Proof.
  intros Hp Hok db'.
  destruct (move_card_success_inv _ _ _ _ _ Hok)
    as (cu & c & l & b & Hcu & Hc & Hl & Hb & Ho & Hmay & Hpos).
  subst db'. rewrite (move_card_allowed env req db cid lid cu c l b) by done.
  simpl. unfold new_position, moved. rewrite Hp. simpl. split; [|split].
  - exists c. split; [done|]. apply lookup_insert_eq.
  - intros other Hne. by rewrite lookup_insert_ne.
  - done.
Qed.

Lemma move_card_writes_verbatim_witness :
  let db' := db_after (move_card 5 1 scenario_env
                         (post_as 2 [] [("new_position", 1%Z)]) scenario_db) in
  cards db' !! 6%N = Some (mkCard "Review" (Some EmptyString) 1 121 1)
  ∧ lists db' = lists scenario_db.
Proof.
  intros db'.
  destruct (move_card_writes_verbatim scenario_env
              (post_as 2 [] [("new_position", 1%Z)]) scenario_db 5 1 1%Z
              eq_refl eq_refl) as (_ & Hother & _ & _ & Hlists & _).
  split; [|exact Hlists].
  fold db' in Hother. rewrite (Hother 6%N) by discriminate. reflexivity.
Defined.

(** C6. A move that succeeds, repeated with the same card, list and body,
    succeeds again and leaves the database the first one left. *)
Theorem move_card_idempotent env env' req db cid lid :
  response (move_card cid lid env req db)
    = Jsonify [("message", "Card moved successfully")] 200 →
  let once := move_card cid lid env req db in
  let twice := move_card cid lid env' req (db_after once) in
  response twice = Jsonify [("message", "Card moved successfully")] 200
  ∧ db_after twice = db_after once.
Proof.
  intros Hok once twice.
  destruct (move_card_success_inv _ _ _ _ _ Hok)
    as (cu & c & l & b & Hcu & Hc & Hl & Hb & Ho & Hmay & Hpos).
  assert (once = committed
            (mkDB (users db) (boards db) (lists db)
                  (<[cid := moved c lid (new_position req)]> (cards db))
                  (board_collaborators db))
            [] [card_moved cid lid (board_id l)]
            (Jsonify [("message", "Card moved successfully")] 200)) as Honce
    by (by apply (move_card_allowed env req db cid lid cu c l b)).
  subst twice. rewrite Honce. simpl.
  rewrite (move_card_allowed env' req _ cid lid cu
             (moved c lid (new_position req)) l b); simpl; try done.
  - split; [done|]. unfold moved. simpl. by rewrite insert_insert_eq.
  - apply lookup_insert_eq.
Qed.

Lemma move_card_idempotent_witness :
  let req := post_as 2 [] [("new_position", 4%Z)] in
  db_after (move_card 5 3 scenario_env req
              (db_after (move_card 5 3 scenario_env req scenario_db)))
    = db_after (move_card 5 3 scenario_env req scenario_db).
Proof.
  intros req.
  apply (move_card_idempotent scenario_env scenario_env req scenario_db 5 3).
  reflexivity.
Defined.

(** ** Lists and cards: a session is all that is asked *)

Lemma forbidden_inv o :
  forbidden o →
  (∃ body, response o = Jsonify body 403)
  ∨ flashed o ≠ [] ∧ ∀ m, flashed o = [m] →
      m = "⚠️ Unauthorized action." ∨ m = "Access denied."
      ∨ m = "Only board owners can add collaborators.".
Proof.
  intros [H|[H|[H|H]]]; [by left|right..];
    (split; [by intros E; rewrite E in H; apply elem_of_nil in H|]);
    intros m E; rewrite E in H; apply list_elem_of_singleton in H; auto.
Qed.

Ltac not_forbidden :=
  let H := fresh in
  intros H; apply forbidden_inv in H as [[? H]|[H H']]; simpl in *;
  [discriminate H
  |first [by destruct H
         |by destruct (H' _ eq_refl) as [?|[?|?]]; discriminate]].

Lemma fk_ok_exists {A} P (parent : gmap N A) k :
  is_Some (parent !! k) → fk_ok P parent k = true.
Proof.
  intros H. unfold fk_ok. rewrite (bool_decide_eq_true_2 _ H). apply orb_true_r.
Qed.

Lemma fk_ok_off {A} P (parent : gmap N A) k :
  fk_enforced P = false → fk_ok P parent k = true.
Proof. intros H. unfold fk_ok. by rewrite H. Qed.

Lemma fk_ok_refused {A} P (parent : gmap N A) k :
  fk_enforced P = true → parent !! k = None → fk_ok P parent k = false.
Proof.
  intros H Hk. unfold fk_ok. rewrite H. simpl.
  apply bool_decide_eq_false_2. rewrite Hk. by intros [? ?].
Qed.

Lemma bind_fk_exists {A} db (parent : gmap N A) k :
  is_Some (parent !! k) → bind_fk db parent k = inr ().
Proof. intros [x Hx]. unfold bind_fk. by rewrite Hx. Qed.

Lemma bind_fk_in_range {A} db (parent : gmap N A) k :
  id_ok k = true → bind_fk db parent k = inr ().
Proof. intros H. unfold bind_fk. rewrite H. by destruct (parent !! k). Qed.

Lemma bind_fk_overflow {A} db (parent : gmap N A) k :
  parent !! k = None → id_ok k = false →
  bind_fk db parent k = inl (reply db [] (Unhandled "OverflowError")).
Proof. intros Hk H. unfold bind_fk. by rewrite Hk, H. Qed.

(** C9, as amended.  For any logged-in user, [add_list] (given the
    [list_name] field and an unused key from the engine) inserts the list
    under the board id of the URL and redirects to the board, for every id
    of an existing board and, when the engine does not enforce foreign keys,
    for every id within the driver's integer range.  For an id that is no
    board the engine decides: beyond the integer range the bind raises
    [OverflowError], within it an engine that enforces foreign keys raises
    [IntegrityError], and nothing is written.  Nothing relates the user to the
    board: neither the owner column nor the collaborators are read, and on no
    request at all does [add_list] give one of the answers of a refused
    authorization. *)
Theorem add_list_unchecked (P : Platform) bid :
  (∀ env req db name cu,
     current_user db req = Some cu →
     form req !! "list_name" = Some name →
     lists db !! new_id env = None →
     is_Some (boards db !! bid) ∨ (fk_enforced P = false ∧ id_ok bid = true) →
     let after := add_list P bid env req db in
     after = committed
               (mkDB (users db) (boards db)
                     (<[new_id env := mkList name bid]> (lists db))
                     (cards db) (board_collaborators db))
               ["✅ List added successfully!"] [refresh_board bid]
               (Redirect (ep_view_board bid))
     ∧ lists (db_after after) !! new_id env = Some (mkList name bid))
  ∧ (∀ env req db name cu,
       current_user db req = Some cu →
       form req !! "list_name" = Some name →
       lists db !! new_id env = None →
       boards db !! bid = None →
       (id_ok bid = false →
          add_list P bid env req db = reply db [] (Unhandled "OverflowError"))
       ∧ (id_ok bid = true → fk_enforced P = true →
          add_list P bid env req db = reply db [] (Unhandled "IntegrityError")))
  ∧ (∀ env req db, ¬ forbidden (add_list P bid env req db)).
Proof.
  split; [|split].
  - intros env req db name cu Hcu Hname Hfree Hfk after. subst after.
    unfold add_list, form_item, insert_row.
    rewrite (login_required_ok _ _ _ Hcu), Hname. simpl.
    assert (bind_fk db (boards db) bid = inr ()
            ∧ fk_ok P (boards db) bid = true) as [-> ->].
    { destruct Hfk as [Hb|[Hfk Hid]].
      - split; [by apply bind_fk_exists|by apply fk_ok_exists].
      - split; [by apply bind_fk_in_range|by apply fk_ok_off]. }
    simpl. rewrite Hfree. split; [done|]. apply lookup_insert_eq.
  - intros env req db name cu Hcu Hname Hfree Hb.
    unfold add_list, form_item, insert_row.
    rewrite (login_required_ok _ _ _ Hcu), Hname. simpl. split.
    + intros Hid. by rewrite (bind_fk_overflow db _ _ Hb Hid).
    + intros Hid Hfk. rewrite (bind_fk_in_range db _ _ Hid). simpl.
      by rewrite Hfree, (fk_ok_refused P _ _ Hfk Hb).
  - intros env req db.
    unfold add_list, login_required, form_item, bind_fk, insert_row.
    destruct (current_user db req); simpl; [|not_forbidden].
    destruct (form req !! "list_name"); simpl; [|not_forbidden].
    destruct (boards db !! bid); simpl;
      [|destruct (id_ok bid); simpl; [|not_forbidden]];
      (destruct (lists db !! new_id env); simpl; [not_forbidden|]);
      destruct (fk_ok P _ bid); simpl; not_forbidden.
Qed.

Lemma add_list_unchecked_witness :
  ¬ may_edit scenario_db 1 (mkBoard "Sprint 1" 110 1) 3
  ∧ lists (db_after (add_list (toy_platform true) 1 scenario_env
                       (post_as 3 [("list_name", "Graffiti")] []) scenario_db))
      !! 10%N
    = Some (mkList "Graffiti" 1).
Proof.
  split.
  - intros [Hown|Hcol]; [discriminate Hown|]. vm_compute in Hcol. discriminate Hcol.
  - apply (proj1 (add_list_unchecked (toy_platform true) 1) scenario_env
             (post_as 3 [("list_name", "Graffiti")] []) scenario_db "Graffiti"
             (3%N, mkUser "carol" "toy$s1$singer" 102) eq_refl eq_refl eq_refl).
    left. eexists. reflexivity.
Defined.

(** C9 as first stated, "for every board id", fails: under an engine that
    enforces foreign keys a list for board 99, which is no row, is refused,
    and under any engine a list for board 2^63 is, the id being more than
    the driver binds.  In both the user is logged in, the field is there and
    the key is free, and no list is written. *)
Lemma add_list_any_board_id_counterexample :
  add_list (toy_platform true) 99 scenario_env
      (post_as 3 [("list_name", "Graffiti")] []) scenario_db
    = reply scenario_db [] (Unhandled "IntegrityError")
  ∧ add_list (toy_platform false) 9223372036854775808 scenario_env
      (post_as 3 [("list_name", "Graffiti")] []) scenario_db
    = reply scenario_db [] (Unhandled "OverflowError").
Proof. split; reflexivity. Qed.

(** X30. [update_list], [delete_list], [update_card] and [delete_card]
    ask for a session and for the row: for any logged-in user, on an existing
    list (for the cards: an existing card whose list exists, so that it has
    a containing board) each one commits its change and answers with its
    redirect.  No hypothesis relates the user to the board, and on no request
    at all does one of the four give one of the answers of a refused
    authorization. *)
Theorem list_card_edits_unchecked :
  (∀ env req db cu,
     current_user db req = Some cu →
     (∀ lid l name, lists db !! lid = Some l →
        form req !! "list_name" = Some name →
        update_list lid env req db
          = committed
              (mkDB (users db) (boards db)
                    (<[lid := mkList name (board_id l)]> (lists db))
                    (cards db) (board_collaborators db))
              ["✅ List updated successfully!"] [refresh_board (board_id l)]
              (Redirect (ep_view_board (board_id l))))
     ∧ (∀ lid l, lists db !! lid = Some l →
        delete_list lid env req db
          = committed (session_delete_list db lid)
              ["🗑️ List deleted successfully!"] [refresh_board (board_id l)]
              (Redirect (ep_view_board (board_id l)))
        ∧ lists (db_after (delete_list lid env req db)) !! lid = None)
     ∧ (∀ cid c l t, cards db !! cid = Some c →
        lists db !! list_id c = Some l →
        form req !! "card_title" = Some t →
        update_card cid env req db
          = committed
              (mkDB (users db) (boards db) (lists db)
                    (<[cid := mkCard t (Some (card_description req)) (position c)
                                (card_date_created c) (list_id c)]> (cards db))
                    (board_collaborators db))
              ["✅ Card updated successfully!"] [refresh_board (board_id l)]
              (RedirectUrl (referrer req)))
     ∧ (∀ cid c l, cards db !! cid = Some c →
        lists db !! list_id c = Some l →
        delete_card cid env req db
          = committed
              (mkDB (users db) (boards db) (lists db) (delete cid (cards db))
                    (board_collaborators db))
              ["🗑️ Card deleted successfully!"] [refresh_board (board_id l)]
              (RedirectUrl (referrer req))
        ∧ cards (db_after (delete_card cid env req db)) !! cid = None))
  ∧ (∀ k env req db,
       ¬ forbidden (update_list k env req db)
       ∧ ¬ forbidden (delete_list k env req db)
       ∧ ¬ forbidden (update_card k env req db)
       ∧ ¬ forbidden (delete_card k env req db)).
Proof.
  split.
  - intros env req db cu Hcu. split; [|split; [|split]].
    + intros lid l name Hl Hname. unfold update_list, form_item.
      rewrite (login_required_ok _ _ _ Hcu), Hl. simpl. by rewrite Hname.
    + intros lid l Hl. unfold delete_list.
      rewrite (login_required_ok _ _ _ Hcu), Hl. simpl. split; [done|].
      apply lookup_delete_eq.
    + intros cid c l t Hc Hl Ht. unfold update_card, form_item, board_of_card.
      rewrite (login_required_ok _ _ _ Hcu), Hc. simpl. rewrite Ht. simpl.
      by rewrite Hl.
    + intros cid c l Hc Hl. unfold delete_card, board_of_card.
      rewrite (login_required_ok _ _ _ Hcu), Hc. simpl. rewrite Hl. simpl.
      split; [done|]. apply lookup_delete_eq.
  - intros k env req db.
    unfold update_list, delete_list, update_card, delete_card, login_required,
      form_item, board_of_card.
    destruct (current_user db req); simpl;
      [|repeat split; not_forbidden].
    split; [|split; [|split]].
    + destruct (lists db !! k); simpl; [|not_forbidden].
      destruct (form req !! "list_name"); simpl; not_forbidden.
    + destruct (lists db !! k); simpl; not_forbidden.
    + destruct (cards db !! k) as [c|]; simpl; [|not_forbidden].
      destruct (form req !! "card_title"); simpl; [|not_forbidden].
      destruct (lists db !! list_id c); simpl; not_forbidden.
    + destruct (cards db !! k) as [c|]; simpl; [|not_forbidden].
      destruct (lists db !! list_id c); simpl; not_forbidden.
Qed.

(** C10.  The four views ask for no membership, but two of them do not
    serve every existing card.  A card whose [list_id] resolves to no list is
    one the application writes itself: [add_card] under a list id that is no
    row, with an engine that does not check foreign keys, commits it, and
    guards its own [new_card.list.board_id] with a [try].  [delete_card] and
    [update_card] read [card.list.board_id] unguarded: on that card
    [delete_card] raises before the delete and the card stays, and
    [update_card] raises after its commit and answers with the error. *)
Theorem orphan_card_edits_fail :
  let db1 := db_after (add_card (toy_platform false) 99 scenario_env
                         (post_as 2 [("card_title", "Lost")] []) scenario_db) in
  let orphan := mkCard "Lost" (Some EmptyString) 0 200 99 in
  response (add_card (toy_platform false) 99 scenario_env
              (post_as 2 [("card_title", "Lost")] []) scenario_db)
    = RedirectUrl (Some "/board/1")
  ∧ cards db1 !! 10%N = Some orphan
  ∧ delete_card 10 scenario_env (post_as 2 [] []) db1
    = reply db1 [] (Unhandled "AttributeError")
  ∧ cards (db_after (delete_card 10 scenario_env (post_as 2 [] []) db1)) !! 10%N
    = Some orphan
  ∧ response (update_card 10 scenario_env
                (post_as 2 [("card_title", "Found")] []) db1)
    = Unhandled "AttributeError"
  ∧ cards (db_after (update_card 10 scenario_env
                       (post_as 2 [("card_title", "Found")] []) db1)) !! 10%N
    = Some (mkCard "Found" (Some EmptyString) 0 200 99).
Proof. repeat split; reflexivity. Qed.

(** The same in general: a card whose
    [list_id] resolves to no list (one [add_card] wrote under an engine that
    does not check foreign keys, the case its [try] is there for) makes
    [card.list.board_id] raise, in [delete_card] before anything is deleted
    and in [update_card] after the commit. *)
Lemma orphan_card_raises env req db cu cid c t :
  current_user db req = Some cu →
  cards db !! cid = Some c →
  lists db !! list_id c = None →
  form req !! "card_title" = Some t →
  delete_card cid env req db = reply db [] (Unhandled "AttributeError")
  ∧ response (update_card cid env req db) = Unhandled "AttributeError"
  ∧ cards (db_after (update_card cid env req db)) !! cid
    = Some (mkCard t (Some (card_description req)) (position c)
              (card_date_created c) (list_id c)).
Proof.
  intros Hcu Hc Hl Ht. unfold delete_card, update_card, form_item, board_of_card.
  rewrite (login_required_ok _ _ _ Hcu), Hc. simpl. rewrite Hl, Ht. simpl.
  split; [done|]. split; [done|]. apply lookup_insert_eq.
Qed.

Lemma list_card_edits_unchecked_witness :
  ¬ may_edit scenario_db 1 (mkBoard "Sprint 1" 110 1) 3
  ∧ lists (db_after (update_list 1 scenario_env
                       (post_as 3 [("list_name", "Hijacked")] []) scenario_db))
      !! 1%N
    = Some (mkList "Hijacked" 1)
  ∧ cards (db_after (delete_card 5 scenario_env (post_as 3 [] []) scenario_db))
      !! 5%N
    = None.
Proof.
  split; [|split].
  - intros [Hown|Hcol]; [discriminate Hown|]. vm_compute in Hcol. discriminate Hcol.
  - rewrite (proj1 (proj1 list_card_edits_unchecked scenario_env
               (post_as 3 [("list_name", "Hijacked")] []) scenario_db
               (3%N, mkUser "carol" "toy$s1$singer" 102) eq_refl)
             1%N (mkList "Todo" 1) "Hijacked" eq_refl eq_refl).
    reflexivity.
  - apply (proj2 (proj2 (proj2 (proj1 list_card_edits_unchecked scenario_env
               (post_as 3 [] []) scenario_db
               (3%N, mkUser "carol" "toy$s1$singer" 102) eq_refl)))
             5%N (mkCard "Write spec" (Some "first draft") 0 120 1)
             (mkList "Todo" 1) eq_refl eq_refl).
Defined.

(** ** What a request can do to the boards and their collaborators *)

Lemma board_change_refl db : board_change db db.
Proof. by apply change_none. Qed.

#[local] Hint Resolve board_change_refl : core.

(** Unfolds a view function down to the matches it is made of. *)
Ltac unfold_view :=
  unfold step_bind, login_required, get_or_404, form_item, related, bind_fk,
    insert_row, reply, committed.

(** Splits on every test of a view function that leaves the three tables
    alone. *)
Ltac untouched :=
  unfold_view; repeat case_match; simplify_eq/=; try apply board_change_refl;
  by apply change_none.

Lemma register_change P env req db :
  board_change db (db_after (register P env req db)).
Proof.
  unfold register. unfold_view. repeat case_match; simplify_eq/=; auto.
  apply change_none; simpl; [|done..]. by apply insert_subseteq.
Qed.

Lemma create_board_change P env req db :
  board_change db (db_after (create_board P env req db)).
Proof.
  unfold create_board. unfold_view.
  destruct (current_user db req) as [[uid u]|] eqn:Hcu; simpl; auto.
  repeat case_match; simplify_eq/=; auto.
  apply current_user_row in Hcu as [_ Hu].
  eapply change_create; simpl; eauto. simpl. by rewrite Hu.
Qed.

Lemma update_board_change bid env req db :
  board_change db (db_after (update_board bid env req db)).
Proof.
  unfold update_board. unfold_view.
  destruct (current_user db req) as [cu|]; simpl; auto.
  destruct (boards db !! bid) as [b|] eqn:Hb; simpl; auto.
  destruct (users db !! user_id b); simpl; auto.
  destruct (negb _); simpl; auto.
  destruct (form req !! "board_name") as [name|]; simpl; auto.
  by apply (change_rename _ _ bid b
              (mkBoard name (board_date_created b) (user_id b))).
Qed.

Lemma delete_board_change bid env req db :
  board_change db (db_after (delete_board bid env req db)).
Proof.
  unfold delete_board. unfold_view. repeat case_match; simplify_eq/=; auto.
  by apply (change_delete _ _ bid).
Qed.

Lemma add_collaborator_change P bid env req db :
  board_change db (db_after (add_collaborator P bid env req db)).
Proof.
  unfold add_collaborator. unfold_view.
  destruct (current_user db req) as [cu|]; simpl; auto.
  destruct (boards db !! bid) as [b|] eqn:Hb; simpl; auto.
  destruct (users db !! user_id b); simpl; auto.
  destruct (negb _); simpl; auto.
  destruct (form req !! "username"); simpl; auto.
  destruct (first_by_username db _) as [[uid target]|]; simpl; auto.
  destruct (bool_decide (uid = user_id b)) eqn:Hown; simpl; auto.
  destruct (is_collaborator db bid uid); simpl; auto.
  apply bool_decide_eq_false in Hown.
  by apply (change_share _ _ bid b uid).
Qed.

Lemma dispatch_change P r env req db :
  board_change db (db_after (dispatch P r env req db)).
Proof.
  destruct r; simpl.
  - apply board_change_refl.
  - apply register_change.
  - unfold login. untouched.
  - unfold logout. untouched.
  - unfold dashboard. untouched.
  - apply create_board_change.
  - apply update_board_change.
  - apply delete_board_change.
  - unfold view_board. untouched.
  - apply add_collaborator_change.
  - unfold add_list. untouched.
  - unfold update_list. untouched.
  - unfold delete_list. untouched.
  - unfold add_card. untouched.
  - unfold update_card. untouched.
  - unfold delete_card. untouched.
  - unfold move_card. untouched.
Qed.

Lemma board_change_collaborators_ok db db' :
  board_change db db' → collaborators_ok db → collaborators_ok db'.
Proof.
  intros Hch Hok bid uid.
  destruct Hch as [_ Hb Hc|k nb Hk _ _ Hb Hc|bid0 b b' Hb0 Hu _ Hb Hc
                  |bid0 _ Hb Hc|bid0 b uid0 Hb0 Hne _ Hb Hc];
    rewrite Hb, Hc; clear Hb Hc.
  - apply Hok.
  - intros Hin. destruct (Hok _ _ Hin) as (b & Hb & Hne). exists b.
    split; [|done]. rewrite lookup_insert_ne; [done|]. congruence.
  - intros Hin. destruct (Hok _ _ Hin) as (b1 & Hb1 & Hne).
    destruct (decide (bid0 = bid)) as [->|Hd].
    + exists b'. rewrite lookup_insert_eq. split; [done|]. congruence.
    + exists b1. by rewrite lookup_insert_ne.
  - rewrite elem_of_filter. simpl. intros [Hd Hin].
    destruct (Hok _ _ Hin) as (b & Hb & Hne). exists b.
    by rewrite lookup_delete_ne.
  - rewrite elem_of_union, elem_of_singleton. intros [[= -> ->]|Hin].
    + exists b. split; [done|]. congruence.
    + by apply Hok.
Qed.

Lemma board_change_owners_exist db db' :
  board_change db db' → owners_exist db → owners_exist db'.
Proof.
  intros Hch Hok bid b.
  destruct Hch as [Hu Hb _|k nb _ Hnb Hu Hb _|bid0 b0 b' Hb0 Hown Hu Hb _
                  |bid0 Hu Hb _|bid0 b0 uid0 _ _ Hu Hb _];
    rewrite Hb; clear Hb.
  - intros Hb. destruct (Hok _ _ Hb) as [o Ho]. exists o.
    by eapply lookup_weaken.
  - rewrite Hu. intros [[_ <-]|[_ Hb]]%lookup_insert_Some; [done|by eapply Hok].
  - rewrite Hu. intros [[_ <-]|[_ Hb]]%lookup_insert_Some; [|by eapply Hok].
    rewrite Hown. by eapply Hok.
  - rewrite Hu. intros [_ Hb]%lookup_delete_Some. by eapply Hok.
  - rewrite Hu. apply Hok.
Qed.

Lemma collaborators_ok_owner db : collaborators_ok db → owner_not_collaborator db.
Proof.
  intros Hok bid b Hb Hin. destruct (Hok _ _ Hin) as (b' & Hb' & Hne).
  congruence.
Qed.

Lemma reachable_collaborators_ok P db : reachable P db → collaborators_ok db.
Proof.
  induction 1 as [|db r env req _ IH].
  - intros bid uid Hin. simpl in Hin. by apply not_elem_of_empty in Hin.
  - eapply board_change_collaborators_ok; [apply dispatch_change|exact IH].
Qed.

(** The hypothesis "the owner of the board is a row of [users]", which the
    statements about [board.owner.id] carry, holds in every database the
    application produces: no view function deletes a user. *)
Lemma reachable_owners_exist P db : reachable P db → owners_exist db.
Proof.
  induction 1 as [|db r env req _ IH].
  - intros bid b Hb. simpl in Hb. by rewrite lookup_empty in Hb.
  - eapply board_change_owners_exist; [apply dispatch_change|exact IH].
Qed.

(** C5. In every database the application can produce, no board has its
    owner among its collaborators, and whatever request is served next, on
    whatever route, this still holds afterwards.  [add_collaborator] by the
    owner, naming a user who is the owner or already a collaborator, flashes
    the warning and writes nothing; naming any other existing user it adds
    exactly the row for that user, who is not the owner. *)
Theorem owner_never_collaborator (P : Platform) :
  (∀ db, reachable P db →
     owner_not_collaborator db
     ∧ ∀ r env req, owner_not_collaborator (db_after (dispatch P r env req db)))
  ∧ (∀ bid env req db b cu raw uid target,
       current_user db req = Some cu →
       boards db !! bid = Some b →
       user_id b = cu.1 →
       form req !! "username" = Some raw →
       first_by_username db (strip P raw) = Some (uid, target) →
       (uid = user_id b ∨ (bid, uid) ∈ board_collaborators db →
          add_collaborator P bid env req db
            = reply db ["⚠️ User is already a collaborator or owner."]
                (Redirect (ep_view_board bid)))
       ∧ (uid ≠ user_id b → (bid, uid) ∉ board_collaborators db →
          db_after (add_collaborator P bid env req db)
            = mkDB (users db) (boards db) (lists db) (cards db)
                   ({[ (bid, uid) ]} ∪ board_collaborators db))).
Proof.
  split.
  - intros db Hreach. split.
    + by eapply collaborators_ok_owner, reachable_collaborators_ok.
    + intros r env req.
      eapply collaborators_ok_owner, reachable_collaborators_ok.
      by apply reachable_step.
  - intros bid env req db b cu raw uid target Hcu Hb Hown Hraw Hfirst.
    unfold add_collaborator, form_item.
    rewrite (login_required_ok _ _ _ Hcu), Hb. simpl.
    rewrite (owner_is_current_user _ _ _ _ Hcu Hown). simpl.
    rewrite (bool_decide_eq_true_2 _ Hown). simpl. rewrite Hraw. simpl.
    rewrite Hfirst. unfold is_collaborator. split.
    + intros [Ho|Hc].
      * by rewrite (bool_decide_eq_true_2 _ Ho).
      * rewrite (bool_decide_eq_true_2 _ Hc). by rewrite orb_true_r.
    + intros Ho Hc. by rewrite !bool_decide_eq_false_2.
Qed.

Lemma owner_never_collaborator_witness :
  owner_not_collaborator
    (db_after (dispatch (toy_platform false) route_create_board
       (mkEnv 1 "s1" 110 0) (post_as 1 [("board_name", "Sprint 1")] [])
       (db_after (dispatch (toy_platform false) route_register
          (mkEnv 1 "s1" 100 0)
          (post_as 9 [("username", "alice"); ("password", "wonderland")] [])
          empty_db))))
  ∧ add_collaborator (toy_platform false) 1 scenario_env
      (post_as 1 [("username", "bob")] []) scenario_db
    = reply scenario_db ["⚠️ User is already a collaborator or owner."]
        (Redirect (ep_view_board 1)).
Proof.
  split.
  - refine (proj1 (proj1 (owner_never_collaborator (toy_platform false)) _ _)).
    apply (reachable_step _ _ route_create_board),
      (reachable_step _ _ route_register), reachable_init.
  - apply (proj1 (proj2 (owner_never_collaborator (toy_platform false))
      1%N scenario_env (post_as 1 [("username", "bob")] []) scenario_db
      (mkBoard "Sprint 1" 110 1) (1%N, mkUser "alice" "toy$s1$wonderland" 100)
      "bob" 2%N (mkUser "bob" "toy$s2$builder" 101)
      eq_refl eq_refl eq_refl eq_refl eq_refl)).
    right. vm_compute. reflexivity.
Defined.

(** * Further properties of the views *)

(** ** Sessions *)

Lemma current_user_None db req :
  current_user db req = None ↔
  ∀ uid, session_user_id req = Some uid → users db !! uid = None.
Proof.
  unfold current_user. destruct (session_user_id req) as [s|]; simpl.
  - destruct (users db !! s) eqn:Hs; simpl; split; try done.
    + intros H. specialize (H s eq_refl). congruence.
    + intros _ uid [= <-]. done.
  - split; [intros _ uid; discriminate|done].
Qed.

(** X1. A request with no session, or with the session of an id that is
    not a row of [users], is answered by every decorated view of the URL map
    above (every route of [dispatch] but [/], [/register] and [/login]) with
    Flask-Login's flash and a redirect to the login page; nothing is written
    and nothing is emitted.  The decorated [/upload] is treated with the
    uploads; [/uploads/<path>] is not decorated. *)
Theorem anonymous_sent_to_login (P : Platform) r env req db :
  protected r = true →
  (∀ uid, session_user_id req = Some uid → users db !! uid = None) →
  dispatch P r env req db
    = reply db ["Please log in to access this page."] (Redirect ep_login).
Proof.
  intros Hr Hanon. apply current_user_None in Hanon.
  destruct r; try discriminate Hr; simpl;
    unfold logout, dashboard, create_board, update_board, delete_board,
      view_board, add_collaborator, add_list, update_list, delete_list,
      add_card, update_card, delete_card, move_card, login_required;
    by rewrite Hanon.
Qed.

Lemma anonymous_sent_to_login_witness :
  dispatch (toy_platform false) (route_move_card 5 3) scenario_env
      (mkRequest POST ∅ ∅ None (Some 42%N)) scenario_db
    = reply scenario_db ["Please log in to access this page."]
        (Redirect ep_login).
Proof.
  apply anonymous_sent_to_login; [reflexivity|].
  intros uid [= <-]. reflexivity.
Defined.

(** X2. With unique usernames, a login under the username of a row whose
    hash verifies the password redirects to the dashboard, opens the
    session of that row's id and writes nothing; a request that carries this
    id is then served as that user. *)
Theorem login_opens_session (P : Platform) env req db uname pwd uid u :
  method req = POST →
  form req !! "username" = Some uname →
  form req !! "password" = Some pwd →
  usernames_unique db →
  users db !! uid = Some u →
  username u = uname →
  check_password_hash P (password u) pwd = true →
  login P env req db = mkOutcome (Redirect ep_dashboard) db [] [] (login_user uid)
  ∧ ∀ req', session_user_id req' = Some uid →
            current_user db req' = Some (uid, u).
Proof.
  intros Hm Hu Hp Huniq Hrow Hname Hcheck. split.
  - unfold login, form_item. rewrite Hm, Hu, Hp. simpl.
    destruct (first_by_username_known db uname uid u Hrow Hname)
      as (k' & u' & Hf).
    rewrite Hf. apply first_by_username_Some in Hf as [Hk' Hname'].
    assert (k' = uid) as -> by (eapply Huniq; eauto; congruence).
    assert (u' = u) as -> by congruence.
    by rewrite Hcheck.
  - intros req' Hs. unfold current_user. rewrite Hs. simpl. by rewrite Hrow.
Qed.

Lemma scenario_usernames_unique : usernames_unique scenario_db.
Proof.
  intros k1 k2 u1 u2. unfold scenario_db. simpl.
  rewrite !lookup_insert, lookup_empty.
  repeat case_decide; intros; simplify_eq/=; done.
Qed.

Lemma login_opens_session_witness :
  login (toy_platform false) scenario_env
      (mkRequest POST
         (list_to_map [("username", "bob"); ("password", "builder")]) ∅ None None)
      scenario_db
    = mkOutcome (Redirect ep_dashboard) scenario_db [] [] (login_user 2).
Proof.
  apply (login_opens_session (toy_platform false) scenario_env _ scenario_db
           "bob" "builder" 2%N (mkUser "bob" "toy$s2$builder" 101));
    try reflexivity.
  apply scenario_usernames_unique.
Defined.

(** X3. Registration and login compose: after a registration under an
    unused username, a login with the same username and password, given
    that werkzeug verifies the hash it has just produced, opens the session
    of the new row. *)
Theorem register_then_login (P : Platform) env env' req db uname pwd :
  method req = POST →
  form req !! "username" = Some uname →
  form req !! "password" = Some pwd →
  unknown_username db uname →
  users db !! new_id env = None →
  check_password_hash P (generate_password_hash P (salt env) pwd) pwd = true →
  let db' := db_after (register P env req db) in
  login P env' req db'
    = mkOutcome (Redirect ep_dashboard) db' [] [] (login_user (new_id env)).
Proof.
  intros Hm Hu Hp Hnew Hfree Hcheck db'.
  assert (db' = mkDB (<[new_id env := mkUser uname
                          (generate_password_hash P (salt env) pwd) (utcnow env)]>
                        (users db))
                     (boards db) (lists db) (cards db) (board_collaborators db))
    as Hdb'.
  { subst db'. unfold register, form_item, insert_row. rewrite Hm, Hu, Hp. simpl.
    apply first_by_username_None in Hnew. by rewrite Hnew, Hfree. }
  clearbody db'. subst db'.
  unfold login, form_item. rewrite Hm, Hu, Hp. simpl.
  destruct (first_by_username_known
              (mkDB (<[new_id env := mkUser uname
                          (generate_password_hash P (salt env) pwd) (utcnow env)]>
                        (users db))
                     (boards db) (lists db) (cards db) (board_collaborators db))
              uname (new_id env)
              (mkUser uname (generate_password_hash P (salt env) pwd) (utcnow env)))
    as (k & u & Hf); [apply lookup_insert_eq|done|].
  rewrite Hf. apply first_by_username_Some in Hf as [Hk Hname]. simpl in Hk.
  destruct (decide (k = new_id env)) as [->|Hne].
  - rewrite lookup_insert_eq in Hk. injection Hk as <-. simpl. by rewrite Hcheck.
  - rewrite lookup_insert_ne in Hk by done. by destruct (Hnew k u).
Qed.

Lemma register_then_login_witness :
  let req := mkRequest POST
               (list_to_map [("username", "dave"); ("password", "hunter2")])
               ∅ None None in
  session_op (login (toy_platform false) scenario_env req
                (db_after (register (toy_platform false) scenario_env req
                             scenario_db)))
    = login_user 10.
Proof.
  intros req.
  rewrite (register_then_login (toy_platform false) scenario_env scenario_env
             req scenario_db "dave" "hunter2"); try reflexivity.
  apply first_by_username_None. reflexivity.
Defined.

(** ** Accounts *)

(** The [users] table changes in one way only: [register] adds a row under
    an unused key and an unused username. *)
Lemma dispatch_users P r env req db :
  users (db_after (dispatch P r env req db)) = users db
  ∨ ∃ u, users db !! new_id env = None ∧ unknown_username db (username u)
         ∧ users (db_after (dispatch P r env req db))
           = <[new_id env := u]> (users db).
Proof.
  destruct r; simpl;
    try (left;
         unfold home, login, logout, dashboard, create_board, update_board,
           delete_board, view_board, add_collaborator, add_list, update_list,
           delete_list, add_card, update_card, delete_card, move_card;
         unfold_view; repeat case_match; simplify_eq/=; done).
  unfold register. unfold_view.
  destruct (method req); simpl; [by left|].
  destruct (form req !! "username") as [uname|]; simpl; [|by left].
  destruct (form req !! "password") as [pwd|]; simpl; [|by left].
  destruct (first_by_username db uname) eqn:Hf; simpl; [by left|].
  destruct (users db !! new_id env) eqn:Hk; simpl; [by left|].
  right. eexists. split; [done|]. split; [|done].
  simpl. by apply first_by_username_None.
Qed.

Lemma users_preserved (P : Platform) r env req db uid u :
  users db !! uid = Some u →
  users (db_after (dispatch P r env req db)) !! uid = Some u.
Proof.
  intros Hu. destruct (dispatch_users P r env req db) as [->|(u' & Hk & _ & ->)];
    [done|].
  rewrite lookup_insert_ne; [done|]. congruence.
Qed.

(** X4. No request removes an account or changes one: every row of
    [users], with its username and its stored hash, is still there after
    any request on any route. *)
Theorem accounts_never_change (P : Platform) r env req db uid u :
  users db !! uid = Some u →
  users (db_after (dispatch P r env req db)) !! uid = Some u.
Proof. apply users_preserved. Qed.

Lemma accounts_never_change_witness :
  users (db_after (dispatch (toy_platform false) route_register scenario_env
                     (post_as 1 [("username", "bob2"); ("password", "x")] [])
                     scenario_db)) !! 2%N
    = Some (mkUser "bob" "toy$s2$builder" 101).
Proof. apply accounts_never_change. reflexivity. Defined.

(** X5. Usernames stay unique: in every database the application can
    produce, two rows of [users] with the same username are the same row. *)
Theorem reachable_usernames_unique (P : Platform) db :
  reachable P db → usernames_unique db.
Proof.
  induction 1 as [|db r env req _ IH].
  - intros k1 k2 u1 u2 H1. simpl in H1. by rewrite lookup_empty in H1.
  - unfold usernames_unique in *.
    destruct (dispatch_users P r env req db) as [->|(u & Hk & Hnew & ->)];
      [done|].
    intros k1 k2 u1 u2.
    rewrite !lookup_insert_Some.
    intros [[<- <-]|[Hn1 H1]] [[<- <-]|[Hn2 H2]] Hname; try done.
    + by destruct (Hnew k2 u2).
    + by destruct (Hnew k1 u1).
    + by eapply IH.
Qed.

Lemma reachable_usernames_unique_witness :
  usernames_unique
    (db_after (dispatch (toy_platform false) route_register
       (mkEnv 2 "s1" 101 0)
       (post_as 9 [("username", "alice"); ("password", "again")] [])
       (db_after (dispatch (toy_platform false) route_register
          (mkEnv 1 "s1" 100 0)
          (post_as 9 [("username", "alice"); ("password", "wonderland")] [])
          empty_db)))).
Proof.
  apply (reachable_usernames_unique (toy_platform false)).
  apply (reachable_step _ _ route_register),
    (reachable_step _ _ route_register), reachable_init.
Defined.

(** ** Viewing and creating boards *)

(** X6. [login], [logout], [dashboard], [view_board] and [home] only read:
    whatever the request, the database is left as it was and no Socket.IO
    event is emitted. *)
Theorem page_views_read_only (P : Platform) bid env req db :
  (db_after (login P env req db) = db ∧ emitted (login P env req db) = [])
  ∧ (db_after (logout env req db) = db ∧ emitted (logout env req db) = [])
  ∧ (db_after (dashboard env req db) = db ∧ emitted (dashboard env req db) = [])
  ∧ (db_after (view_board bid env req db) = db
     ∧ emitted (view_board bid env req db) = [])
  ∧ (db_after (home env req db) = db ∧ emitted (home env req db) = []).
Proof.
  unfold login, logout, dashboard, view_board, home. unfold_view.
  repeat split; repeat case_match; simplify_eq/=; done.
Qed.

Lemma view_board_cases env req db bid cu :
  current_user db req = Some cu →
  (boards db !! bid = None → view_board bid env req db = reply db [] (Abort 404))
  ∧ (∀ b, boards db !! bid = Some b → is_Some (users db !! user_id b) →
       (may_edit db bid b cu.1 →
          view_board bid env req db
            = reply db [] (render_template env "board.html"))
       ∧ (¬ may_edit db bid b cu.1 →
          view_board bid env req db
            = reply db ["Access denied."] (Redirect ep_dashboard))).
Proof.
  intros Hcu. unfold view_board. rewrite (login_required_ok _ _ _ Hcu). split.
  - by intros ->.
  - intros b Hb [o Ho]. rewrite Hb. simpl. rewrite Ho. simpl.
    unfold may_edit, is_collaborator. split.
    + intros [Hown|Hcol].
      * by rewrite (bool_decide_eq_true_2 _ Hown).
      * rewrite (bool_decide_eq_true_2 _ Hcol). simpl. by rewrite andb_false_r.
    + intros Hno. by rewrite !bool_decide_eq_false_2 by tauto.
Qed.

(** X7. [view_board] shows an existing board to its owner and to its
    collaborators and to nobody else: any other logged-in user gets the
    flash "Access denied." and a redirect to the dashboard; a board id that
    is no row, within the driver's integer range, is answered 404. *)
Theorem view_board_access env req db bid cu :
  current_user db req = Some cu →
  (boards db !! bid = None → id_ok bid = true →
     view_board bid env req db = reply db [] (Abort 404))
  ∧ (∀ b, boards db !! bid = Some b → is_Some (users db !! user_id b) →
       (may_edit db bid b cu.1 →
          view_board bid env req db
            = reply db [] (render_template env "board.html"))
       ∧ (¬ may_edit db bid b cu.1 →
          view_board bid env req db
            = reply db ["Access denied."] (Redirect ep_dashboard))).
Proof.
  intros Hcu. destruct (view_board_cases env req db bid cu Hcu) as [H404 Hrow].
  split; [by intros Hb _; apply H404|exact Hrow].
Qed.

Lemma view_board_access_witness :
  view_board 1 scenario_env (post_as 2 [] []) scenario_db
    = reply scenario_db [] (Render "board.html" "Dream big. Start small. Act now.")
  ∧ view_board 1 scenario_env (post_as 3 [] []) scenario_db
    = reply scenario_db ["Access denied."] (Redirect ep_dashboard).
Proof.
  split.
  - apply (proj2 (view_board_access scenario_env (post_as 2 [] []) scenario_db 1
             (2%N, mkUser "bob" "toy$s2$builder" 101) eq_refl)
             (mkBoard "Sprint 1" 110 1) eq_refl).
    + eexists. reflexivity.
    + right. vm_compute. reflexivity.
  - apply (proj2 (view_board_access scenario_env (post_as 3 [] []) scenario_db 1
             (3%N, mkUser "carol" "toy$s1$singer" 102) eq_refl)
             (mkBoard "Sprint 1" 110 1) eq_refl).
    + eexists. reflexivity.
    + intros [Hown|Hcol]; [discriminate Hown|].
      vm_compute in Hcol. discriminate Hcol.
Defined.

(** X8. In a database the application has produced, [create_board] by a
    logged-in user (given the [board_name] field and an unused key) adds one
    board with that name, owned by that user, changes no other row and emits
    [refresh_dashboard] to every client; the new board starts private:
    [view_board] shows it to its creator and denies every other user. *)
Theorem create_board_private (P : Platform) env req db name cu :
  reachable P db →
  current_user db req = Some cu →
  form req !! "board_name" = Some name →
  boards db !! new_id env = None →
  let after := create_board P env req db in
  after = committed
            (mkDB (users db)
                  (<[new_id env := mkBoard name (utcnow env) cu.1]> (boards db))
                  (lists db) (cards db) (board_collaborators db))
            ["✅ Board created successfully!"] [refresh_dashboard]
            (Redirect ep_dashboard)
  ∧ ∀ env' req' cu', current_user (db_after after) req' = Some cu' →
      (cu'.1 = cu.1 →
         view_board (new_id env) env' req' (db_after after)
           = reply (db_after after) [] (render_template env' "board.html"))
      ∧ (cu'.1 ≠ cu.1 →
         view_board (new_id env) env' req' (db_after after)
           = reply (db_after after) ["Access denied."] (Redirect ep_dashboard)).
Proof.
  intros Hreach Hcu Hname Hfree after.
  assert (users db !! cu.1 = Some cu.2) as Hrow.
  { destruct cu as [uid u]. by apply current_user_row in Hcu as [_ ?]. }
  assert (after = committed
            (mkDB (users db)
                  (<[new_id env := mkBoard name (utcnow env) cu.1]> (boards db))
                  (lists db) (cards db) (board_collaborators db))
            ["✅ Board created successfully!"] [refresh_dashboard]
            (Redirect ep_dashboard)) as Hafter.
  { subst after. unfold create_board, form_item, insert_row, fk_ok.
    rewrite (login_required_ok _ _ _ Hcu), Hname. simpl. rewrite Hfree.
    rewrite (bool_decide_eq_true_2 (is_Some (users db !! cu.1)))
      by (by rewrite Hrow).
    by rewrite orb_true_r. }
  split; [exact Hafter|]. clearbody after. subst after. simpl.
  intros env' req' cu' Hcu'.
  pose proof (view_board_cases env' req' _ (new_id env) cu' Hcu') as [_ Hview].
  specialize (Hview (mkBoard name (utcnow env) cu.1)).
  simpl in Hview. rewrite lookup_insert_eq in Hview.
  destruct (Hview eq_refl) as [Hyes Hno]; [by rewrite Hrow|].
  split.
  - intros Heq. apply Hyes. left. done.
  - intros Hne. apply Hno. intros [Hown|Hcol]; simpl in *; [congruence|].
    apply (reachable_collaborators_ok P db Hreach) in Hcol
      as (b & Hb & _). congruence.
Qed.

Lemma create_board_private_witness :
  let db :=
    db_after (dispatch (toy_platform false) route_register (mkEnv 2 "s2" 101 0)
      (post_as 9 [("username", "bob"); ("password", "builder")] [])
      (db_after (dispatch (toy_platform false) route_register
         (mkEnv 1 "s1" 100 0)
         (post_as 9 [("username", "alice"); ("password", "wonderland")] [])
         empty_db))) in
  let db' := db_after (create_board (toy_platform false) (mkEnv 1 "s1" 110 0)
                         (post_as 1 [("board_name", "Sprint 1")] []) db) in
  view_board 1 scenario_env (post_as 2 [] []) db'
    = reply db' ["Access denied."] (Redirect ep_dashboard).
Proof.
  intros db db'.
  apply (proj2 (create_board_private (toy_platform false) (mkEnv 1 "s1" 110 0)
                  (post_as 1 [("board_name", "Sprint 1")] []) db "Sprint 1"
                  (1%N, mkUser "alice" "toy$s1$wonderland" 100)
                  (reachable_step _ _ route_register _ _
                     (reachable_step _ _ route_register _ _
                        (reachable_init _)))
                  eq_refl eq_refl eq_refl)
               scenario_env (post_as 2 [] [])
               (2%N, mkUser "bob" "toy$s2$builder" 101) eq_refl).
  discriminate.
Defined.

(** ** Cards *)

(** X9. [add_card] under an existing list, by any logged-in user (given the
    [card_title] field and an unused key), adds one card with that title,
    position 0, the [card_description] field or the empty string when the
    field is absent, and emits [refresh_board] to the room of the list's
    board; no other row changes, and on no request does it give one of the
    answers of a refused authorization. *)
Theorem add_card_defaults (P : Platform) lid :
  (∀ env req db l t cu,
     current_user db req = Some cu →
     form req !! "card_title" = Some t →
     cards db !! new_id env = None →
     lists db !! lid = Some l →
     add_card P lid env req db
       = committed
           (mkDB (users db) (boards db) (lists db)
                 (<[new_id env :=
                      mkCard t (Some (default EmptyString
                                        (form req !! "card_description")))
                             0 (utcnow env) lid]> (cards db))
                 (board_collaborators db))
           ["✅ Card added successfully!"] [refresh_board (board_id l)]
           (RedirectUrl (referrer req)))
  ∧ (∀ env req db, ¬ forbidden (add_card P lid env req db)).
Proof.
  split.
  - intros env req db l t cu Hcu Ht Hfree Hl.
    unfold add_card, form_item, insert_row, board_of_card, card_description.
    rewrite (login_required_ok _ _ _ Hcu), Ht. simpl.
    rewrite (bind_fk_exists db (lists db) lid), (fk_ok_exists P (lists db) lid)
      by (rewrite Hl; eauto).
    simpl. by rewrite Hfree, Hl.
  - intros env req db.
    unfold add_card, login_required, form_item, bind_fk, insert_row.
    destruct (current_user db req); simpl; [|not_forbidden].
    destruct (form req !! "card_title"); simpl; [|not_forbidden].
    destruct (lists db !! lid) eqn:Hl; simpl;
      [|destruct (id_ok lid); simpl; [|not_forbidden]];
      (destruct (cards db !! new_id env); simpl; [not_forbidden|]);
      destruct (fk_ok P _ lid); simpl; not_forbidden.
Qed.

Lemma add_card_defaults_witness :
  cards (db_after (add_card (toy_platform true) 4 scenario_env
                     (post_as 2 [("card_title", "Peek")] []) scenario_db))
    !! 10%N
  = Some (mkCard "Peek" (Some EmptyString) 0 200 4).
Proof.
  rewrite (proj1 (add_card_defaults (toy_platform true) 4) scenario_env
             (post_as 2 [("card_title", "Peek")] []) scenario_db
             (mkList "Ideas" 2) "Peek" (2%N, mkUser "bob" "toy$s2$builder" 101)
             eq_refl eq_refl eq_refl eq_refl).
  reflexivity.
Defined.

(** X10. [add_card] under a list id that is no row.  For an id within the
    driver's integer range, an engine that checks foreign keys refuses the
    insert and nothing is written; one that does not stores the card all the
    same, and the [except] branch sends the refresh to the room named after
    the list id.  For an id beyond the range the bind raises [OverflowError]
    under either engine and nothing is written. *)
Theorem add_card_missing_list (P : Platform) lid env req db t cu :
  current_user db req = Some cu →
  form req !! "card_title" = Some t →
  cards db !! new_id env = None →
  lists db !! lid = None →
  (id_ok lid = true → fk_enforced P = true →
     add_card P lid env req db = reply db [] (Unhandled "IntegrityError"))
  ∧ (id_ok lid = true → fk_enforced P = false →
     cards (db_after (add_card P lid env req db)) !! new_id env
       = Some (mkCard t (Some (card_description req)) 0 (utcnow env) lid)
     ∧ emitted (add_card P lid env req db) = [refresh_board lid]
     ∧ response (add_card P lid env req db) = RedirectUrl (referrer req))
  ∧ (id_ok lid = false →
     add_card P lid env req db = reply db [] (Unhandled "OverflowError")).
Proof.
  intros Hcu Ht Hfree Hl.
  unfold add_card, form_item, insert_row, board_of_card.
  rewrite (login_required_ok _ _ _ Hcu), Ht. simpl. split; [|split].
  - intros Hid Hfk. rewrite (bind_fk_in_range db _ _ Hid). simpl.
    by rewrite Hfree, (fk_ok_refused P _ _ Hfk Hl).
  - intros Hid Hfk. rewrite (bind_fk_in_range db _ _ Hid). simpl.
    rewrite Hfree, (fk_ok_off P _ _ Hfk), Hl. simpl.
    split; [apply lookup_insert_eq|done].
  - intros Hid. by rewrite (bind_fk_overflow db _ _ Hl Hid).
Qed.

Lemma add_card_missing_list_witness :
  add_card (toy_platform true) 99 scenario_env
      (post_as 2 [("card_title", "Lost")] []) scenario_db
    = reply scenario_db [] (Unhandled "IntegrityError")
  ∧ emitted (add_card (toy_platform false) 99 scenario_env
               (post_as 2 [("card_title", "Lost")] []) scenario_db)
    = [refresh_board 99]
  ∧ add_card (toy_platform false) 9223372036854775808 scenario_env
      (post_as 2 [("card_title", "Lost")] []) scenario_db
    = reply scenario_db [] (Unhandled "OverflowError").
Proof.
  split; [|split].
  - apply (proj1 (add_card_missing_list (toy_platform true) 99 scenario_env
             (post_as 2 [("card_title", "Lost")] []) scenario_db "Lost"
             (2%N, mkUser "bob" "toy$s2$builder" 101)
             eq_refl eq_refl eq_refl eq_refl)); reflexivity.
  - apply (proj1 (proj2 (add_card_missing_list (toy_platform false) 99
             scenario_env (post_as 2 [("card_title", "Lost")] []) scenario_db
             "Lost" (2%N, mkUser "bob" "toy$s2$builder" 101)
             eq_refl eq_refl eq_refl eq_refl))); reflexivity.
  - apply (proj2 (proj2 (add_card_missing_list (toy_platform false)
             9223372036854775808 scenario_env
             (post_as 2 [("card_title", "Lost")] []) scenario_db
             "Lost" (2%N, mkUser "bob" "toy$s2$builder" 101)
             eq_refl eq_refl eq_refl eq_refl))); reflexivity.
Defined.

(** ** Cascades *)

(** X11. [delete_list] removes the list and exactly the cards that were on
    it: every card of another list is the row it was, no card appears, and
    the other lists, the boards, the users and the collaborators are
    untouched. *)
Theorem delete_list_cascade env req db lid l cu :
  current_user db req = Some cu →
  lists db !! lid = Some l →
  let db' := db_after (delete_list lid env req db) in
  lists db' = delete lid (lists db)
  ∧ (∀ cid, cards db' !! cid
       = match cards db !! cid with
         | Some c => if decide (list_id c = lid) then None else Some c
         | None => None
         end)
  ∧ users db' = users db ∧ boards db' = boards db
  ∧ board_collaborators db' = board_collaborators db.
Proof.
  intros Hcu Hl db'. subst db'. unfold delete_list.
  rewrite (login_required_ok _ _ _ Hcu), Hl. simpl.
  split; [done|]. split; [|done].
  intros cid. destruct (cards db !! cid) as [c|] eqn:Hc.
  - case_decide as Hd.
    + apply map_lookup_filter_None. right. intros c' Hc'. simpl.
      rewrite Hc in Hc'. injection Hc' as <-. tauto.
    + apply map_lookup_filter_Some. done.
  - apply map_lookup_filter_None. by left.
Qed.

Lemma delete_list_cascade_witness :
  let db' := db_after (delete_list 1 scenario_env (post_as 3 [] []) scenario_db) in
  cards db' !! 5%N = None
  ∧ cards db' !! 7%N = Some (mkCard "Secret" (Some EmptyString) 0 122 4).
Proof.
  intros db'.
  destruct (delete_list_cascade scenario_env (post_as 3 [] []) scenario_db 1
              (mkList "Todo" 1) (3%N, mkUser "carol" "toy$s1$singer" 102)
              eq_refl eq_refl) as (_ & Hcards & _).
  fold db' in Hcards. rewrite !Hcards. split; reflexivity.
Defined.

(** X12. [delete_board] by the owner takes nothing from another board:
    every other board, every list of another board, every card that is not
    on a list of the deleted board, every association row of another board
    and every user is as before. *)
Theorem delete_board_frame env req db bid b cu :
  current_user db req = Some cu →
  boards db !! bid = Some b →
  user_id b = cu.1 →
  let db' := db_after (delete_board bid env req db) in
  users db' = users db
  ∧ (∀ other, other ≠ bid → boards db' !! other = boards db !! other)
  ∧ (∀ lid l, lists db !! lid = Some l → board_id l ≠ bid →
       lists db' !! lid = Some l)
  ∧ (∀ cid c, cards db !! cid = Some c → board_of_card db c ≠ Some bid →
       cards db' !! cid = Some c)
  ∧ (∀ other uid, other ≠ bid →
       (other, uid) ∈ board_collaborators db'
       ↔ (other, uid) ∈ board_collaborators db).
Proof.
  intros Hcu Hb Hown db'. subst db'. unfold delete_board.
  rewrite (login_required_ok _ _ _ Hcu), Hb. simpl.
  rewrite (owner_is_current_user _ _ _ _ Hcu Hown). simpl.
  rewrite (bool_decide_eq_true_2 _ Hown). simpl.
  split; [done|]. split; [|split; [|split]].
  - intros other Hne. by rewrite lookup_delete_ne.
  - intros lid l Hl Hne. by apply map_lookup_filter_Some.
  - intros cid c Hc Hne. by apply map_lookup_filter_Some.
  - intros other uid Hne. rewrite elem_of_filter. simpl. tauto.
Qed.

Lemma delete_board_frame_witness :
  let db' := db_after (delete_board 1 scenario_env (post_as 1 [] []) scenario_db) in
  lists db' !! 4%N = Some (mkList "Ideas" 2)
  ∧ cards db' !! 7%N = Some (mkCard "Secret" (Some EmptyString) 0 122 4).
Proof.
  intros db'.
  destruct (delete_board_frame scenario_env (post_as 1 [] []) scenario_db 1
              (mkBoard "Sprint 1" 110 1)
              (1%N, mkUser "alice" "toy$s1$wonderland" 100)
              eq_refl eq_refl eq_refl) as (_ & _ & Hlists & Hcards & _).
  split.
  - apply Hlists; [reflexivity|discriminate].
  - apply Hcards; [reflexivity|]. vm_compute. discriminate.
Defined.

(** ** More on moving cards *)

(** X13. [move_card] looks at the destination only: the owner or a
    collaborator of the destination list's board moves any existing card
    there, whichever list and board the card is on and whatever the user's
    standing on that board.  With a position the driver can bind (a signed
    64-bit integer) the card then carries the destination list and the
    position sent, and [card_moved] goes to the destination board's room;
    with a position beyond that the commit raises [OverflowError] and
    nothing is written. *)
Theorem move_card_destination_only env req db cid lid cu c l b :
  current_user db req = Some cu →
  cards db !! cid = Some c →
  lists db !! lid = Some l →
  boards db !! board_id l = Some b →
  is_Some (users db !! user_id b) →
  may_edit db (board_id l) b cu.1 →
  let after := move_card cid lid env req db in
  (int_ok (new_position req) = true →
     response after = Jsonify [("message", "Card moved successfully")] 200
     ∧ cards (db_after after) !! cid = Some (moved c lid (new_position req))
     ∧ emitted after = [card_moved cid lid (board_id l)])
  ∧ (int_ok (new_position req) = false →
     after = reply db [] (Unhandled "OverflowError")).
Proof.
  intros Hcu Hc Hl Hb Ho Hmay after. subst after. split; intros Hpos.
  - rewrite (move_card_allowed env req db cid lid cu c l b) by done.
    simpl. split; [done|]. split; [apply lookup_insert_eq|done].
  - by apply (move_card_overflow env req db cid lid cu c l b).
Qed.

Lemma move_card_destination_only_witness :
  ¬ may_edit scenario_db 1 (mkBoard "Sprint 1" 110 1) 3
  ∧ cards (db_after (move_card 5 4 scenario_env
                       (post_as 3 [] [("new_position", 9%Z)]) scenario_db))
      !! 5%N
    = Some (mkCard "Write spec" (Some "first draft") 9 120 4)
  ∧ move_card 5 4 scenario_env
      (post_as 3 [] [("new_position", 9223372036854775808%Z)]) scenario_db
    = reply scenario_db [] (Unhandled "OverflowError").
Proof.
  split; [|split].
  - intros [Hown|Hcol]; [discriminate Hown|]. vm_compute in Hcol. discriminate Hcol.
  - apply (proj1 (move_card_destination_only scenario_env
             (post_as 3 [] [("new_position", 9%Z)]) scenario_db 5 4
             (3%N, mkUser "carol" "toy$s1$singer" 102)
             (mkCard "Write spec" (Some "first draft") 0 120 1)
             (mkList "Ideas" 2) (mkBoard "Private" 111 3)
             eq_refl eq_refl eq_refl eq_refl
             (ex_intro _ _ eq_refl) (or_introl eq_refl))).
    reflexivity.
  - apply (proj2 (move_card_destination_only scenario_env
             (post_as 3 [] [("new_position", 9223372036854775808%Z)])
             scenario_db 5 4
             (3%N, mkUser "carol" "toy$s1$singer" 102)
             (mkCard "Write spec" (Some "first draft") 0 120 1)
             (mkList "Ideas" 2) (mkBoard "Private" 111 3)
             eq_refl eq_refl eq_refl eq_refl
             (ex_intro _ _ eq_refl) (or_introl eq_refl))).
    reflexivity.
Defined.

(** X14. [move_card] on a card id that is no row, or on an existing card and
    a list id that is no row, the absent id being within the driver's
    integer range, answers 404 before any authorization test and writes
    nothing; a move answered 200 whose body has no [new_position] has put
    the card at position 0. *)
Theorem move_card_missing_rows env req db cid lid cu :
  current_user db req = Some cu →
  (cards db !! cid = None → id_ok cid = true →
     move_card cid lid env req db = reply db [] (Abort 404))
  ∧ (is_Some (cards db !! cid) → lists db !! lid = None → id_ok lid = true →
     move_card cid lid env req db = reply db [] (Abort 404))
  ∧ (get_json req !! "new_position" = None →
     response (move_card cid lid env req db)
       = Jsonify [("message", "Card moved successfully")] 200 →
     ∃ c, cards db !! cid = Some c
          ∧ cards (db_after (move_card cid lid env req db)) !! cid
            = Some (mkCard (title c) (description c) 0 (card_date_created c) lid)).
Proof.
  intros Hcu. split; [|split].
  - unfold move_card. rewrite (login_required_ok _ _ _ Hcu). simpl.
    by intros -> _.
  - unfold move_card. rewrite (login_required_ok _ _ _ Hcu). simpl.
    intros [c ->] -> _. done.
  - intros Hp Hok.
    destruct (move_card_success_inv _ _ _ _ _ Hok)
      as (cu' & c & l & b & Hcu' & Hc & Hl & Hb & Ho & Hmay & Hpos).
    rewrite (move_card_allowed env req db cid lid cu' c l b) by done.
    exists c. split; [done|]. simpl. unfold moved, new_position. rewrite Hp.
    apply lookup_insert_eq.
Qed.

Lemma move_card_missing_rows_witness :
  move_card 5 99 scenario_env (post_as 3 [] []) scenario_db
    = reply scenario_db [] (Abort 404).
Proof.
  apply (proj1 (proj2 (move_card_missing_rows scenario_env (post_as 3 [] [])
                  scenario_db 5 99 (3%N, mkUser "carol" "toy$s1$singer" 102)
                  eq_refl))).
  - eexists. reflexivity.
  - reflexivity.
  - reflexivity.
Defined.

(** ** More on collaborators *)

(** X15. [add_collaborator] by anyone but the owner, a collaborator
    included, flashes "Only board owners can add collaborators." and writes
    nothing; by the owner, naming (after [strip]) a username no row has, it
    flashes "User not found!" and writes nothing.  Both redirect to the
    board. *)
Theorem add_collaborator_refusals (P : Platform) bid env req db b cu :
  current_user db req = Some cu →
  boards db !! bid = Some b →
  is_Some (users db !! user_id b) →
  (user_id b ≠ cu.1 →
     add_collaborator P bid env req db
       = reply db ["Only board owners can add collaborators."]
           (Redirect (ep_view_board bid)))
  ∧ (user_id b = cu.1 →
     ∀ raw, form req !! "username" = Some raw →
       unknown_username db (strip P raw) →
       add_collaborator P bid env req db
         = reply db ["❌ User not found!"] (Redirect (ep_view_board bid))).
Proof.
  intros Hcu Hb [o Ho]. unfold add_collaborator, form_item.
  rewrite (login_required_ok _ _ _ Hcu), Hb. simpl. rewrite Ho. simpl. split.
  - intros Hne. by rewrite (bool_decide_eq_false_2 _ Hne).
  - intros Hown raw Hraw Hnone. rewrite (bool_decide_eq_true_2 _ Hown). simpl.
    rewrite Hraw. simpl. apply first_by_username_None in Hnone.
    by rewrite Hnone.
Qed.

Lemma add_collaborator_refusals_witness :
  add_collaborator (toy_platform false) 1 scenario_env
      (post_as 2 [("username", "carol")] []) scenario_db
    = reply scenario_db ["Only board owners can add collaborators."]
        (Redirect (ep_view_board 1))
  ∧ add_collaborator (toy_platform false) 1 scenario_env
      (post_as 1 [("username", "nobody")] []) scenario_db
    = reply scenario_db ["❌ User not found!"] (Redirect (ep_view_board 1)).
Proof.
  split.
  - apply (proj1 (add_collaborator_refusals (toy_platform false) 1 scenario_env
             (post_as 2 [("username", "carol")] []) scenario_db
             (mkBoard "Sprint 1" 110 1) (2%N, mkUser "bob" "toy$s2$builder" 101)
             eq_refl eq_refl (ex_intro _ _ eq_refl))).
    discriminate.
  - apply (proj2 (add_collaborator_refusals (toy_platform false) 1 scenario_env
             (post_as 1 [("username", "nobody")] []) scenario_db
             (mkBoard "Sprint 1" 110 1)
             (1%N, mkUser "alice" "toy$s1$wonderland" 100)
             eq_refl eq_refl (ex_intro _ _ eq_refl)) eq_refl "nobody" eq_refl).
    apply first_by_username_None. reflexivity.
Defined.

(** X16. Sharing takes effect at once and stops short of ownership: after
    the owner's [add_collaborator] naming another existing user, a request
    of that user is shown the board by [view_board] and may move any
    existing card onto a list of the board (the move is answered 200 for
    every position the driver can bind), while [update_board] and
    [delete_board] still refuse it. *)
Theorem collaborator_gains_access (P : Platform) bid env req db b cu raw uid
    target :
  current_user db req = Some cu →
  boards db !! bid = Some b →
  user_id b = cu.1 →
  form req !! "username" = Some raw →
  first_by_username db (strip P raw) = Some (uid, target) →
  uid ≠ user_id b →
  let db' := db_after (add_collaborator P bid env req db) in
  ∀ env' req', session_user_id req' = Some uid →
    view_board bid env' req' db'
      = reply db' [] (render_template env' "board.html")
    ∧ update_board bid env' req' db'
      = reply db' ["⚠️ Unauthorized action."] (Redirect ep_dashboard)
    ∧ delete_board bid env' req' db'
      = reply db' ["⚠️ Unauthorized action."] (Redirect ep_dashboard)
    ∧ ∀ cid lid c l, cards db !! cid = Some c → lists db !! lid = Some l →
        board_id l = bid →
        int_ok (new_position req') = true →
        response (move_card cid lid env' req' db')
          = Jsonify [("message", "Card moved successfully")] 200.
Proof.
  intros Hcu Hb Hown Hraw Hfirst Hne db'.
  pose proof (owner_is_current_user _ _ _ _ Hcu Hown) as Howner.
  apply first_by_username_Some in Hfirst as Htarget. destruct Htarget as [Hrow _].
  assert (users db' = users db ∧ boards db' = boards db ∧ lists db' = lists db
          ∧ cards db' = cards db ∧ (bid, uid) ∈ board_collaborators db')
    as (Hu & Hbs & Hls & Hcs & Hin).
  { subst db'. unfold add_collaborator, form_item.
    rewrite (login_required_ok _ _ _ Hcu), Hb. simpl. rewrite Howner. simpl.
    rewrite (bool_decide_eq_true_2 _ Hown). simpl. rewrite Hraw. simpl.
    rewrite Hfirst. rewrite (bool_decide_eq_false_2 _ Hne). simpl.
    unfold is_collaborator.
    destruct (decide ((bid, uid) ∈ board_collaborators db)) as [Hc|Hc].
    - by rewrite (bool_decide_eq_true_2 _ Hc).
    - rewrite (bool_decide_eq_false_2 _ Hc). simpl. repeat split; try done.
      set_solver. }
  clearbody db'. intros env' req' Hs.
  assert (current_user db' req' = Some (uid, target)) as Hcu'.
  { unfold current_user. rewrite Hs, Hu. simpl. by rewrite Hrow. }
  assert (is_Some (users db' !! user_id b)) as Ho by (rewrite Hu, Howner; eauto).
  assert (boards db' !! bid = Some b) as Hb' by (by rewrite Hbs).
  split; [|split; [|split]].
  - apply (proj2 (view_board_cases env' req' db' bid (uid, target) Hcu') b Hb' Ho).
    by right.
  - unfold update_board. rewrite (login_required_ok _ _ _ Hcu'), Hb'. simpl.
    destruct Ho as [o ->]. simpl.
    rewrite bool_decide_eq_false_2 by (simpl; congruence). done.
  - unfold delete_board. rewrite (login_required_ok _ _ _ Hcu'), Hb'. simpl.
    destruct Ho as [o ->]. simpl.
    rewrite bool_decide_eq_false_2 by (simpl; congruence). done.
  - intros cid lid c l Hc Hl Hbid Hpos. rewrite <-Hcs in Hc. rewrite <-Hls in Hl.
    rewrite <-Hbid in Hb', Hin.
    rewrite (move_card_allowed env' req' db' cid lid (uid, target) c l b);
      try done.
    by right.
Qed.

Lemma collaborator_gains_access_witness :
  let db' := db_after (add_collaborator (toy_platform false) 2 scenario_env
                         (post_as 3 [("username", "bob")] []) scenario_db) in
  view_board 2 scenario_env (post_as 2 [] []) db'
    = reply db' [] (Render "board.html" "Dream big. Start small. Act now.")
  ∧ delete_board 2 scenario_env (post_as 2 [] []) db'
    = reply db' ["⚠️ Unauthorized action."] (Redirect ep_dashboard).
Proof.
  intros db'.
  destruct (collaborator_gains_access (toy_platform false) 2 scenario_env
              (post_as 3 [("username", "bob")] []) scenario_db
              (mkBoard "Private" 111 3) (3%N, mkUser "carol" "toy$s1$singer" 102)
              "bob" 2%N (mkUser "bob" "toy$s2$builder" 101)
              eq_refl eq_refl eq_refl eq_refl eq_refl ltac:(discriminate)
              scenario_env (post_as 2 [] []) eq_refl)
    as (Hview & _ & Hdel & _).
  split; [exact Hview|exact Hdel].
Defined.

(** ** Missing form fields *)

(** X17. A view that reads a form field the request does not carry stops
    with status 400 (BadRequestKeyError) before anything is written: the
    database is the one before the request and nothing is emitted. *)
Theorem missing_field_bad_request (P : Platform) env req db :
  (method req = POST →
   form req !! "username" = None ∨ form req !! "password" = None →
     register P env req db = reply db [] (Abort 400)
     ∧ login P env req db = reply db [] (Abort 400))
  ∧ (∀ cu, current_user db req = Some cu →
      (form req !! "board_name" = None →
         create_board P env req db = reply db [] (Abort 400)
         ∧ ∀ bid b, boards db !! bid = Some b → user_id b = cu.1 →
             update_board bid env req db = reply db [] (Abort 400))
      ∧ (form req !! "list_name" = None →
         (∀ bid, add_list P bid env req db = reply db [] (Abort 400))
         ∧ ∀ lid, is_Some (lists db !! lid) →
             update_list lid env req db = reply db [] (Abort 400))
      ∧ (form req !! "card_title" = None →
         (∀ lid, add_card P lid env req db = reply db [] (Abort 400))
         ∧ ∀ cid, is_Some (cards db !! cid) →
             update_card cid env req db = reply db [] (Abort 400))
      ∧ (form req !! "username" = None →
         ∀ bid b, boards db !! bid = Some b → user_id b = cu.1 →
           add_collaborator P bid env req db = reply db [] (Abort 400))).
Proof.
  split.
  - intros Hm Hmiss. unfold register, login, form_item. rewrite Hm.
    destruct Hmiss as [->| ->]; simpl; [done|].
    by destruct (form req !! "username").
  - intros cu Hcu.
    unfold create_board, update_board, add_list, update_list, add_card,
      update_card, add_collaborator, form_item.
    rewrite (login_required_ok _ _ _ Hcu). simpl.
    split; [|split; [|split]]; intros ->; simpl.
    + split; [done|]. intros bid b -> Hown. simpl.
      rewrite (owner_is_current_user _ _ _ _ Hcu Hown). simpl.
      by rewrite (bool_decide_eq_true_2 _ Hown).
    + split; [done|]. by intros lid [l ->].
    + split; [done|]. by intros cid [c ->].
    + intros bid b -> Hown. simpl.
      rewrite (owner_is_current_user _ _ _ _ Hcu Hown). simpl.
      by rewrite (bool_decide_eq_true_2 _ Hown).
Qed.

Lemma missing_field_bad_request_witness :
  update_card 5 scenario_env (post_as 3 [("card_description", "x")] [])
      scenario_db
    = reply scenario_db [] (Abort 400).
Proof.
  apply (proj2 (missing_field_bad_request (toy_platform false) scenario_env
                  (post_as 3 [("card_description", "x")] []) scenario_db)
               (3%N, mkUser "carol" "toy$s1$singer" 102) eq_refl).
  - reflexivity.
  - eexists. reflexivity.
Defined.

(** ** Referential integrity *)

Lemma is_Some_insert {A} (m : gmap N A) i x j :
  is_Some (m !! j) → is_Some (<[i := x]> m !! j).
Proof. intros H. apply lookup_insert_is_Some'. by right. Qed.

Lemma create_board_no_orphans P env req db :
  no_orphans db → no_orphans (db_after (create_board P env req db)).
Proof.
  intros Hinv. unfold create_board. unfold_view.
  destruct (current_user db req); simpl; [|exact Hinv].
  destruct (form req !! "board_name"); simpl; [|exact Hinv].
  destruct (boards db !! new_id env); simpl; [exact Hinv|].
  destruct (fk_ok P (users db) _); simpl; [|exact Hinv].
  destruct Hinv as [Hl Hc]. split; simpl; [|exact Hc].
  intros lid l Hlk. apply is_Some_insert. eauto.
Qed.

Lemma update_board_no_orphans bid env req db :
  no_orphans db → no_orphans (db_after (update_board bid env req db)).
Proof.
  intros Hinv. unfold update_board. unfold_view.
  destruct (current_user db req); simpl; [|exact Hinv].
  destruct (boards db !! bid) as [b|]; simpl; [|exact Hinv].
  destruct (users db !! user_id b); simpl; [|exact Hinv].
  destruct (negb _); simpl; [exact Hinv|].
  destruct (form req !! "board_name"); simpl; [|exact Hinv].
  destruct Hinv as [Hl Hc]. split; simpl; [|exact Hc].
  intros lid l Hlk. apply is_Some_insert. eauto.
Qed.

Lemma session_delete_board_no_orphans db bid :
  no_orphans db → no_orphans (session_delete_board db bid).
Proof.
  intros [Hl Hc]. split; simpl.
  - intros lid l [Hlk Hne]%map_lookup_filter_Some. simpl in Hne.
    apply lookup_delete_is_Some. split; [done|]. eauto.
  - intros cid c [Hck Hne]%map_lookup_filter_Some. simpl in Hne.
    destruct (Hc _ _ Hck) as [l Hlk]. exists l.
    apply map_lookup_filter_Some. split; [done|]. simpl.
    unfold board_of_card in Hne. rewrite Hlk in Hne. simpl in Hne. congruence.
Qed.

Lemma delete_board_no_orphans bid env req db :
  no_orphans db → no_orphans (db_after (delete_board bid env req db)).
Proof.
  intros Hinv. unfold delete_board. unfold_view.
  destruct (current_user db req); simpl; [|exact Hinv].
  destruct (boards db !! bid) as [b|]; simpl; [|exact Hinv].
  destruct (users db !! user_id b); simpl; [|exact Hinv].
  destruct (negb _); simpl; [exact Hinv|].
  by apply session_delete_board_no_orphans.
Qed.

Lemma add_list_no_orphans P bid env req db :
  fk_enforced P = true →
  no_orphans db → no_orphans (db_after (add_list P bid env req db)).
Proof.
  intros Hfk Hinv. unfold add_list, step_bind, login_required, form_item,
    insert_row, reply, committed, fk_ok. rewrite Hfk.
  destruct (current_user db req); simpl; [|exact Hinv].
  destruct (form req !! "list_name") as [name|]; simpl; [|exact Hinv].
  destruct (bind_fk db (boards db) bid) as [o|[]] eqn:Hbind; simpl.
  { unfold bind_fk, reply in Hbind. repeat case_match; simplify_eq/=.
    exact Hinv. }
  destruct (lists db !! new_id env); simpl; [exact Hinv|].
  case_bool_decide as Hb; simpl; [|exact Hinv].
  destruct Hinv as [Hl Hc]. split; simpl.
  - intros lid l [[_ <-]|[_ Hlk]]%lookup_insert_Some; simpl; eauto.
  - intros cid c Hck. apply is_Some_insert. eauto.
Qed.

Lemma update_list_no_orphans lid env req db :
  no_orphans db → no_orphans (db_after (update_list lid env req db)).
Proof.
  intros Hinv. unfold update_list. unfold_view.
  destruct (current_user db req); simpl; [|exact Hinv].
  destruct (lists db !! lid) as [l0|] eqn:Hl0; simpl; [|exact Hinv].
  destruct (form req !! "list_name") as [name|]; simpl; [|exact Hinv].
  destruct Hinv as [Hl Hc]. split; simpl.
  - intros k l [[_ <-]|[_ Hlk]]%lookup_insert_Some; simpl; eauto.
  - intros cid c Hck. apply is_Some_insert. eauto.
Qed.

Lemma delete_list_no_orphans lid env req db :
  no_orphans db → no_orphans (db_after (delete_list lid env req db)).
Proof.
  intros Hinv. unfold delete_list. unfold_view.
  destruct (current_user db req); simpl; [|exact Hinv].
  destruct (lists db !! lid) as [l0|]; simpl; [|exact Hinv].
  destruct Hinv as [Hl Hc]. split; simpl.
  - intros k l [_ Hlk]%lookup_delete_Some. eauto.
  - intros cid c [Hck Hne]%map_lookup_filter_Some. simpl in Hne.
    apply lookup_delete_is_Some. split; [done|]. eauto.
Qed.

Lemma add_card_no_orphans P lid env req db :
  fk_enforced P = true →
  no_orphans db → no_orphans (db_after (add_card P lid env req db)).
Proof.
  intros Hfk Hinv. unfold add_card, step_bind, login_required, form_item,
    insert_row, reply, committed, fk_ok. rewrite Hfk.
  destruct (current_user db req); simpl; [|exact Hinv].
  destruct (form req !! "card_title") as [t|]; simpl; [|exact Hinv].
  destruct (bind_fk db (lists db) lid) as [o|[]] eqn:Hbind; simpl.
  { unfold bind_fk, reply in Hbind. repeat case_match; simplify_eq/=.
    exact Hinv. }
  destruct (cards db !! new_id env); simpl; [exact Hinv|].
  case_bool_decide as Hb; simpl; [|exact Hinv].
  destruct Hinv as [Hl Hc]. split; simpl; [exact Hl|].
  intros cid c [[_ <-]|[_ Hck]]%lookup_insert_Some; simpl; eauto.
Qed.

Lemma update_card_no_orphans cid env req db :
  no_orphans db → no_orphans (db_after (update_card cid env req db)).
Proof.
  intros Hinv. unfold update_card. unfold_view.
  destruct (current_user db req); simpl; [|exact Hinv].
  destruct (cards db !! cid) as [c0|] eqn:Hc0; simpl; [|exact Hinv].
  destruct (form req !! "card_title") as [t|]; simpl; [|exact Hinv].
  destruct Hinv as [Hl Hc].
  assert (∀ k c, <[cid := mkCard t (Some (card_description req)) (position c0)
                            (card_date_created c0) (list_id c0)]> (cards db) !! k
                 = Some c → is_Some (lists db !! list_id c)) as Hc'.
  { intros k c [[_ <-]|[_ Hck]]%lookup_insert_Some; simpl; eauto. }
  destruct (board_of_card _ _); simpl; by split.
Qed.

Lemma delete_card_no_orphans cid env req db :
  no_orphans db → no_orphans (db_after (delete_card cid env req db)).
Proof.
  intros Hinv. unfold delete_card. unfold_view.
  destruct (current_user db req); simpl; [|exact Hinv].
  destruct (cards db !! cid) as [c0|]; simpl; [|exact Hinv].
  destruct (board_of_card db c0); simpl; [|exact Hinv].
  destruct Hinv as [Hl Hc]. split; simpl; [exact Hl|].
  intros k c [_ Hck]%lookup_delete_Some. eauto.
Qed.

Lemma move_card_no_orphans cid lid env req db :
  no_orphans db → no_orphans (db_after (move_card cid lid env req db)).
Proof.
  intros Hinv. unfold move_card. unfold_view.
  destruct (current_user db req); simpl; [|exact Hinv].
  destruct (cards db !! cid) as [c0|]; simpl; [|exact Hinv].
  destruct (lists db !! lid) as [l0|] eqn:Hl0; simpl; [|exact Hinv].
  destruct (boards db !! board_id l0) as [b|]; simpl; [|exact Hinv].
  destruct (users db !! user_id b); simpl; [|exact Hinv].
  destruct (_ && _); simpl; [exact Hinv|].
  destruct (negb _); simpl; [exact Hinv|].
  destruct Hinv as [Hl Hc]. split; simpl; [exact Hl|].
  intros k c [[_ <-]|[_ Hck]]%lookup_insert_Some; simpl; eauto.
Qed.

Lemma dispatch_no_orphans P r env req db :
  fk_enforced P = true →
  no_orphans db → no_orphans (db_after (dispatch P r env req db)).
Proof.
  intros Hfk Hinv. destruct r; simpl.
  - exact Hinv.
  - unfold register. unfold_view. repeat case_match; simplify_eq/=; exact Hinv.
  - unfold login. unfold_view. repeat case_match; simplify_eq/=; exact Hinv.
  - unfold logout. unfold_view. repeat case_match; simplify_eq/=; exact Hinv.
  - unfold dashboard. unfold_view. repeat case_match; simplify_eq/=; exact Hinv.
  - by apply create_board_no_orphans.
  - by apply update_board_no_orphans.
  - by apply delete_board_no_orphans.
  - unfold view_board. unfold_view. repeat case_match; simplify_eq/=; exact Hinv.
  - unfold add_collaborator. unfold_view.
    repeat case_match; simplify_eq/=; exact Hinv.
  - by apply add_list_no_orphans.
  - by apply update_list_no_orphans.
  - by apply delete_list_no_orphans.
  - by apply add_card_no_orphans.
  - by apply update_card_no_orphans.
  - by apply delete_card_no_orphans.
  - by apply move_card_no_orphans.
Qed.

Lemma dispatch_collaborators_exist P r env req db :
  collaborators_exist db →
  collaborators_exist (db_after (dispatch P r env req db)).
Proof.
  intros Hinv bid uid Hin.
  assert ((bid, uid) ∈ board_collaborators db
          ∨ is_Some (users db !! uid)) as Hold.
  { revert Hin. destruct r; simpl;
      try (unfold home, register, login, logout, dashboard, create_board,
             update_board, view_board, add_list, update_list, delete_list,
             add_card, update_card, delete_card, move_card;
           unfold_view; repeat case_match; simplify_eq/=; by left).
    - unfold delete_board. unfold_view.
      repeat case_match; simplify_eq/=; try by left.
      rewrite elem_of_filter. intros [_ ?]. by left.
    - unfold add_collaborator. unfold_view.
      destruct (current_user db req); simpl; [|by left].
      destruct (boards db !! _) as [b|]; simpl; [|by left].
      destruct (users db !! user_id b); simpl; [|by left].
      destruct (negb _); simpl; [by left|].
      destruct (form req !! "username"); simpl; [|by left].
      destruct (first_by_username db _) as [[k target]|] eqn:Hf; simpl;
        [|by left].
      destruct (_ || _); simpl; [by left|].
      rewrite elem_of_union, elem_of_singleton. intros [[= -> ->]|?]; [|by left].
      right. apply first_by_username_Some in Hf as [-> _]. eauto. }
  assert (is_Some (users db !! uid)) as [u Hu]
    by (destruct Hold; [by eapply Hinv|done]).
  exists u. by apply users_preserved.
Qed.

(** X18. Foreign keys keep resolving.  In every database the application
    can produce, the owner of each board and the user of each association
    row are rows of [users], and each association row belongs to an existing
    board; when the engine enforces foreign keys, each list also has its
    board and each card its list: the cascades of [delete_board] and
    [delete_list] leave no orphan. *)
Theorem reachable_integrity (P : Platform) db :
  reachable P db →
  owners_exist db
  ∧ collaborators_exist db
  ∧ (∀ bid uid, (bid, uid) ∈ board_collaborators db → is_Some (boards db !! bid))
  ∧ (fk_enforced P = true → no_orphans db).
Proof.
  intros Hreach. split; [by eapply reachable_owners_exist|].
  split; [|split].
  - induction Hreach as [|db r env req _ IH].
    + intros bid uid Hin. simpl in Hin. by apply not_elem_of_empty in Hin.
    + by apply dispatch_collaborators_exist.
  - intros bid uid Hin.
    destruct (reachable_collaborators_ok P db Hreach bid uid Hin) as (b & -> & _).
    eauto.
  - intros Hfk. induction Hreach as [|db r env req _ IH].
    + split; intros k x Hk; simpl in Hk; by rewrite lookup_empty in Hk.
    + by apply dispatch_no_orphans.
Qed.

Lemma reachable_integrity_witness :
  no_orphans
    (db_after (dispatch (toy_platform true) (route_add_list 7)
       (mkEnv 1 "s1" 120 0) (post_as 1 [("list_name", "Todo")] [])
       (db_after (dispatch (toy_platform true) route_register
          (mkEnv 1 "s1" 100 0)
          (post_as 9 [("username", "alice"); ("password", "wonderland")] [])
          empty_db)))).
Proof.
  refine (proj2 (proj2 (proj2 (reachable_integrity (toy_platform true) _ _)))
            eq_refl).
  apply (reachable_step _ _ (route_add_list 7)),
    (reachable_step _ _ route_register), reachable_init.
Defined.

(** * File upload *)

Lemma pretty_N_go_free x s :
  free_of "_"%char s → free_of "_"%char (pretty_N_go x s).
Proof.
  revert s. induction (N.lt_wf_0 x) as [x _ IH]; intros s Hs.
  assert (x = 0 ∨ 0 < x)%N as [->|Hpos] by lia.
  - by rewrite pretty_N_go_0.
  - rewrite pretty_N_go_step by done. apply IH.
    + by apply N.div_lt.
    + split; [|done]. unfold pretty_N_char. by repeat case_match.
Qed.

Lemma pretty_N_free (x : N) : free_of "_"%char (pretty x).
Proof.
  unfold pretty, pretty_N. case_decide; [by split|].
  by apply pretty_N_go_free.
Qed.

(** The decimal form of an integer has no underscore. *)
Lemma pretty_Z_free (z : Z) : free_of "_"%char (pretty z).
Proof.
  destruct z as [|p|p]; unfold pretty, pretty_Z.
  - by split.
  - apply pretty_N_free.
  - split; [done|]. apply pretty_N_free.
Qed.

Lemma free_of_split a s1 s2 r1 r2 :
  free_of a s1 → free_of a s2 →
  s1 ++ String a r1 = s2 ++ String a r2 → s1 = s2 ∧ r1 = r2.
Proof.
  revert s2. induction s1 as [|c s1 IH]; intros [|c' s2]; simpl.
  - intros _ _ [= ->]. done.
  - intros _ [Hc _] [= <-]. done.
  - intros [Hc _] _ [= ->]. done.
  - intros [_ H1] [_ H2] [= <- Heq]. destruct (IH s2 H1 H2 Heq) as [-> ->]. done.
Qed.

Lemma final_name_inj t1 n1 t2 n2 :
  final_name t1 n1 = final_name t2 n2 → t1 = t2 ∧ n1 = n2.
Proof.
  unfold final_name. intros Heq.
  apply free_of_split in Heq as [Ht Hn]; [|apply pretty_Z_free..].
  split; [by apply (inj pretty)|done].
Qed.

Section UploadProofs.

Context (secure_filename : string → string).
Context (url_for_uploaded_file : string → string).

#[local] Abbreviation upload := (upload_file secure_filename url_for_uploaded_file).

(** X19. [upload_file] stores nothing when it refuses: a request without a
    valid session is sent to the login page, one without a [file] part gets
    400 "No file part", one whose file has an empty name gets 400 "No
    selected file"; in the three cases the folder is as before, and the
    database is never written by an upload. *)
Theorem upload_refusals env req db folder :
  ((∀ uid, session_user_id (upload_request req) = Some uid →
           users db !! uid = None) →
     upload env req db folder
       = (reply db ["Please log in to access this page."] (Redirect ep_login),
          folder))
  ∧ (is_Some (current_user db (upload_request req)) →
     (files req !! "file" = None →
        upload env req db folder
          = (reply db [] (Jsonify [("error", "No file part")] 400), folder))
     ∧ (∀ file, files req !! "file" = Some file → filename file = EmptyString →
        upload env req db folder
          = (reply db [] (Jsonify [("error", "No selected file")] 400), folder)))
  ∧ db_after (upload env req db folder).1 = db.
Proof.
  unfold upload_file, login_required. split; [|split].
  - intros Hanon. apply current_user_None in Hanon. by rewrite Hanon.
  - intros [cu ->]. split.
    + by intros ->.
    + intros file -> Hname. by rewrite Hname.
  - repeat case_match; simplify_eq/=; try done.
Qed.

(** X20. An accepted upload can be read back: the bytes are stored under
    the timestamp, an underscore and the secured name, the answer carries
    the URL of that name, [uploaded_file] then returns those bytes (it takes
    no session at all), and every other name in the folder reads as
    before. *)
Theorem upload_round_trip env req db folder cu file :
  current_user db (upload_request req) = Some cu →
  files req !! "file" = Some file →
  filename file ≠ EmptyString →
  let name := final_name (utcnow env) (secure_filename (filename file)) in
  let after := upload env req db folder in
  response after.1 = Jsonify [("file_url", url_for_uploaded_file name)] 200
  ∧ uploaded_file name after.2 = inr (stream file)
  ∧ ∀ other, other ≠ name →
      uploaded_file other after.2 = uploaded_file other folder.
Proof.
  intros Hcu Hfile Hname name after. subst after.
  unfold upload_file. rewrite (login_required_ok _ _ _ Hcu), Hfile.
  destruct (filename file) as [|c rest] eqn:Hfn; [done|]. simpl.
  fold name. unfold uploaded_file. split; [done|]. split.
  - by rewrite lookup_insert_eq.
  - intros other Hne. by rewrite lookup_insert_ne.
Qed.

(** X21. Two accepted uploads land on the same name exactly when they
    happen in the same second with the same secured name; then the second
    replaces the first, whose bytes are lost.  In every other case, a
    different second or a different secured name, both files are there to
    be read. *)
Theorem upload_collisions env1 env2 req1 req2 db folder cu1 cu2 f1 f2 :
  current_user db (upload_request req1) = Some cu1 →
  current_user db (upload_request req2) = Some cu2 →
  files req1 !! "file" = Some f1 → filename f1 ≠ EmptyString →
  files req2 !! "file" = Some f2 → filename f2 ≠ EmptyString →
  let name1 := final_name (utcnow env1) (secure_filename (filename f1)) in
  let name2 := final_name (utcnow env2) (secure_filename (filename f2)) in
  let folder' := (upload env2 req2 db (upload env1 req1 db folder).2).2 in
  (utcnow env1 = utcnow env2
   ∧ secure_filename (filename f1) = secure_filename (filename f2) →
     name1 = name2
     ∧ uploaded_file name1 folder' = inr (stream f2)
     ∧ folder' = (upload env2 req2 db folder).2)
  ∧ (utcnow env1 ≠ utcnow env2
     ∨ secure_filename (filename f1) ≠ secure_filename (filename f2) →
     uploaded_file name1 folder' = inr (stream f1)
     ∧ uploaded_file name2 folder' = inr (stream f2)).
Proof.
  intros Hcu1 Hcu2 Hf1 Hn1 Hf2 Hn2 name1 name2 folder'.
  assert (folder' = <[name2 := stream f2]> (<[name1 := stream f1]> folder))
    as Hfolder'.
  { subst folder'. unfold upload_file.
    rewrite (login_required_ok _ _ _ Hcu1), (login_required_ok _ _ _ Hcu2),
      Hf1, Hf2.
    destruct (filename f1) eqn:E1; [done|].
    destruct (filename f2) eqn:E2; [done|]. done. }
  assert ((upload env2 req2 db folder).2 = <[name2 := stream f2]> folder)
    as Hsecond.
  { unfold upload_file. rewrite (login_required_ok _ _ _ Hcu2), Hf2.
    destruct (filename f2) eqn:E2; [done|]. done. }
  rewrite Hsecond, Hfolder'. clear Hfolder' Hsecond folder'.
  unfold uploaded_file. split.
  - intros [Ht Hs]. assert (name1 = name2) as Heq.
    { subst name1 name2. by rewrite Ht, Hs. }
    split; [done|]. rewrite Heq, insert_insert_eq, lookup_insert_eq. done.
  - intros Hdiff. assert (name1 ≠ name2) as Hne.
    { intros Heq. apply final_name_inj in Heq as [? ?]. tauto. }
    rewrite lookup_insert_ne by done. by rewrite !lookup_insert_eq.
Qed.

End UploadProofs.

Lemma upload_refusals_witness :
  upload_file (λ s, s) (λ s, s) scenario_env
      (mkUploadRequest (post_as 1 [] [])
         (list_to_map [("file", mkFileStorage EmptyString "bytes")]))
      scenario_db ∅
    = (reply scenario_db [] (Jsonify [("error", "No selected file")] 400), ∅).
Proof.
  apply (proj2 (proj1 (proj2 (upload_refusals (λ s, s) (λ s, s) scenario_env
           (mkUploadRequest (post_as 1 [] [])
              (list_to_map [("file", mkFileStorage EmptyString "bytes")]))
           scenario_db ∅)) (ex_intro _ _ eq_refl))
         (mkFileStorage EmptyString "bytes")); reflexivity.
Defined.

Lemma upload_round_trip_witness :
  uploaded_file "200_notes.txt"
    (upload_file (λ s, s) (λ s, "http://localhost/uploads/" ++ s) scenario_env
       (mkUploadRequest (post_as 1 [] [])
          (list_to_map [("file", mkFileStorage "notes.txt" "hello")]))
       scenario_db ∅).2
  = inr "hello".
Proof.
  apply (upload_round_trip (λ s, s) (λ s, "http://localhost/uploads/" ++ s)
           scenario_env
           (mkUploadRequest (post_as 1 [] [])
              (list_to_map [("file", mkFileStorage "notes.txt" "hello")]))
           scenario_db ∅ (1%N, mkUser "alice" "toy$s1$wonderland" 100)
           (mkFileStorage "notes.txt" "hello"));
    [reflexivity|reflexivity|discriminate].
Defined.

Lemma upload_collisions_witness :
  let up (req : UploadRequest) folder :=
    (upload_file (λ s, s) (λ s, s) scenario_env req scenario_db folder).2 in
  let first := mkUploadRequest (post_as 1 [] [])
                 (list_to_map [("file", mkFileStorage "notes.txt" "alice's")]) in
  let second := mkUploadRequest (post_as 2 [] [])
                  (list_to_map [("file", mkFileStorage "notes.txt" "bob's")]) in
  uploaded_file "200_notes.txt" (up second (up first ∅)) = inr "bob's".
Proof.
  intros up first second.
  apply (proj1 (upload_collisions (λ s, s) (λ s, s) scenario_env scenario_env
                  first second scenario_db ∅
                  (1%N, mkUser "alice" "toy$s1$wonderland" 100)
                  (2%N, mkUser "bob" "toy$s2$builder" 101)
                  (mkFileStorage "notes.txt" "alice's")
                  (mkFileStorage "notes.txt" "bob's")
                  eq_refl eq_refl ltac:(reflexivity) ltac:(discriminate)
                  ltac:(reflexivity) ltac:(discriminate))).
  split; reflexivity.
Defined.

(** * Socket.IO events *)

Lemma board_room_name_inj (b1 b2 : N) :
  board_room_name (JInt (Z.of_N b1)) = board_room_name (JInt (Z.of_N b2)) →
  b1 = b2.
Proof.
  intros Heq. unfold board_room_name, str in Heq.
  apply (inj (String.append _)), (inj pretty) in Heq. lia.
Qed.

(** X22. Room names keep boards apart: the rooms of two different board
    ids are different rooms, no board room is the chat room
    ["collab_room"], and a board id sent as the string of its digits names
    the room of the number. *)
Theorem board_rooms_distinct :
  (∀ b1 b2 : N,
     board_room_name (JInt (Z.of_N b1)) = board_room_name (JInt (Z.of_N b2)) →
     b1 = b2)
  ∧ (∀ v, board_room_name v ≠ "collab_room")
  ∧ (∀ z : Z, board_room_name (JStr (pretty z)) = board_room_name (JInt z)).
Proof.
  split; [|split].
  - apply board_room_name_inj.
  - intros v. unfold board_room_name. simpl. discriminate.
  - done.
Qed.

Lemma board_rooms_distinct_witness : (2 + 3 = 5)%N.
Proof. apply (proj1 board_rooms_distinct (2 + 3)%N 5%N). reflexivity. Defined.

(** X23. [handle_join] puts the calling connection in the room of the board
    id it sends, whatever that id, and touches no other membership; joining
    again changes nothing; [handle_leave] with the same data undoes a join
    that was new; without a [board_id] both raise [KeyError] and leave the
    rooms alone.  Neither emits anything. *)
Theorem join_leave_board sid data rooms :
  (∀ v, data !! "board_id" = Some v →
     let room := board_room_name v in
     let joined := rooms_after (handle_join sid data rooms) in
     (sid, room) ∈ joined
     ∧ (∀ m, m ≠ (sid, room) → m ∈ joined ↔ m ∈ rooms)
     ∧ rooms_after (handle_join sid data joined) = joined
     ∧ ((sid, room) ∉ rooms → rooms_after (handle_leave sid data joined) = rooms)
     ∧ (sid, room) ∉ rooms_after (handle_leave sid data rooms))
  ∧ (data !! "board_id" = None →
     handle_join sid data rooms = mkHandled rooms [] (Some "KeyError")
     ∧ handle_leave sid data rooms = mkHandled rooms [] (Some "KeyError"))
  ∧ sent (handle_join sid data rooms) = []
  ∧ sent (handle_leave sid data rooms) = [].
Proof.
  unfold handle_join, handle_leave, join_room, leave_room.
  split; [|split; [|split]].
  - intros v ->. simpl. split; [|split; [|split; [|split]]].
    + apply elem_of_union_l, elem_of_singleton. done.
    + intros m Hm. rewrite elem_of_union, elem_of_singleton. tauto.
    + apply set_eq. intros m. rewrite !elem_of_union. tauto.
    + intros Hnew. apply set_eq. intros m.
      rewrite elem_of_difference, elem_of_union, elem_of_singleton.
      split; [tauto|]. intros Hm. split; [by right|]. congruence.
    + rewrite elem_of_difference, elem_of_singleton. tauto.
  - by intros ->.
  - by destruct (data !! "board_id").
  - by destruct (data !! "board_id").
Qed.

Lemma join_leave_board_witness :
  ("sid-1", "board_5")
    ∈ rooms_after (handle_join "sid-1" {[ "board_id" := JInt 5 ]} ∅).
Proof.
  assert (({[ "board_id" := JInt 5 ]} : gmap string JVal) !! "board_id"
          = Some (JInt 5)) as Hdata by reflexivity.
  destruct (proj1 (join_leave_board "sid-1" _ ∅) (JInt 5) Hdata) as [Hin _].
  exact Hin.
Defined.

(** X24. [handle_board_message] with a [board_id] that is there and true
    emits one [board_message], to the room of that board and to no other
    room, carrying the id, the declared username (or "Anonymous") and the
    message (or the empty string); with a [board_id] that is missing, [None],
    [0], [False] or empty it emits nothing.  The rooms are never changed. *)
Theorem board_message_scope sid data rooms :
  (∀ v, data !! "board_id" = Some v → truthy v = true →
     sent (handle_board_message sid data rooms)
       = [mkEmit "board_message"
            (list_to_map
               [("board_id", v); ("username", declared_username data);
                ("message", default (JStr EmptyString) (data !! "message"))])
            (board_room_name v)]
     ∧ ∀ listener e, e ∈ sent (handle_board_message sid data rooms) →
         (receives rooms listener e ↔ (listener, board_room_name v) ∈ rooms))
  ∧ (kept data "board_id" = None → sent (handle_board_message sid data rooms) = [])
  ∧ rooms_after (handle_board_message sid data rooms) = rooms.
Proof.
  unfold handle_board_message, kept. split; [|split].
  - intros v -> ->. split; [done|].
    intros listener e ->%list_elem_of_singleton. done.
  - destruct (data !! "board_id") as [v|]; simpl; [|done].
    by destruct (truthy v).
  - destruct (data !! "board_id") as [v|]; simpl; [|done].
    by destruct (truthy v).
Qed.

Lemma board_message_scope_witness :
  sent (handle_board_message "sid-1"
          (list_to_map [("board_id", JInt 0); ("message", JStr "hi")]) ∅)
    = [].
Proof.
  apply (proj1 (proj2 (board_message_scope "sid-1"
           (list_to_map [("board_id", JInt 0); ("message", JStr "hi")]) ∅))).
  reflexivity.
Defined.

(** X25. The payload [handle_collab_message] sends to the chat room has the
    declared username (or "Anonymous"), the message and the file when they
    are there and true, the file name when it and the file are, and no other
    key: whatever else arrived is not passed on.  It is one emit to
    ["collab_room"], and the rooms are unchanged. *)
Theorem collab_message_payload sid data rooms :
  ∃ payload,
    handle_collab_message sid data rooms
      = mkHandled rooms [mkEmit "message" payload "collab_room"] None
    ∧ payload !! "username" = Some (declared_username data)
    ∧ payload !! "message" = kept data "message"
    ∧ payload !! "file" = kept data "file"
    ∧ payload !! "filename"
      = match kept data "file" with
        | Some _ => kept data "filename"
        | None => None
        end
    ∧ ∀ key, key ∉ ["username"; "message"; "file"; "filename"] →
        payload !! key = None.
Proof.
  unfold handle_collab_message, copy_if_truthy, kept.
  eexists. split; [reflexivity|].
  destruct (data !! "message") as [m|]; simpl; [destruct (truthy m)|];
    (destruct (data !! "file") as [f|]; simpl; [destruct (truthy f)|]);
    try (destruct (data !! "filename") as [n|]; simpl; [destruct (truthy n)|]);
    (repeat split; [..|intros key Hkey;
       rewrite !not_elem_of_cons in Hkey; destruct Hkey as (?&?&?&?&_)]);
    by simplify_map_eq.
Qed.

(** X26. The chat announcements: [handle_join_collab] joins before it
    emits, so the connection that joins receives its own "joined" line;
    [handle_leave_collab] leaves before it emits, so the one that leaves
    does not receive its "left" line.  Every other connection of the chat
    room receives both, and the line names whatever username the data
    declares. *)
Theorem collab_announcements sid data rooms :
  let joined := handle_join_collab sid data rooms in
  let left := handle_leave_collab sid data rooms in
  (∃ payload,
     sent joined = [mkEmit "message" payload "collab_room"]
     ∧ payload !! "username" = Some (JStr "System")
     ∧ payload !! "message"
       = Some (JStr (str (declared_username data)
                     ++ " joined the collaboration chat.")))
  ∧ (∃ payload,
     sent left = [mkEmit "message" payload "collab_room"]
     ∧ payload !! "username" = Some (JStr "System")
     ∧ payload !! "message"
       = Some (JStr (str (declared_username data)
                     ++ " left the collaboration chat.")))
  ∧ (∀ e, e ∈ sent joined → receives (rooms_after joined) sid e)
  ∧ (∀ e, e ∈ sent left → ¬ receives (rooms_after left) sid e)
  ∧ (∀ other, other ≠ sid → (other, "collab_room") ∈ rooms →
       (∀ e, e ∈ sent joined → receives (rooms_after joined) other e)
       ∧ (∀ e, e ∈ sent left → receives (rooms_after left) other e)).
Proof.
  intros joined left. subst joined left.
  unfold handle_join_collab, handle_leave_collab, receives, join_room,
    leave_room. simpl.
  split; [|split; [|split; [|split]]].
  - eexists. split; [reflexivity|]. by simplify_map_eq.
  - eexists. split; [reflexivity|]. by simplify_map_eq.
  - intros e ->%list_elem_of_singleton. simpl.
    by apply elem_of_union_l, elem_of_singleton.
  - intros e ->%list_elem_of_singleton. simpl.
    rewrite elem_of_difference, elem_of_singleton. tauto.
  - intros other Hne Hin.
    split; intros e ->%list_elem_of_singleton; simpl.
    + by apply elem_of_union_r.
    + rewrite elem_of_difference, elem_of_singleton. split; [done|congruence].
Qed.

Lemma collab_message_payload_witness :
  ∃ payload,
    sent (handle_collab_message "sid-1"
            (list_to_map [("username", JStr "admin"); ("message", JStr "hi");
                          ("filename", JStr "a.png"); ("role", JStr "owner")])
            ∅)
      = [mkEmit "message" payload "collab_room"]
    ∧ payload !! "filename" = None ∧ payload !! "role" = None.
Proof.
  destruct (collab_message_payload "sid-1"
              (list_to_map [("username", JStr "admin"); ("message", JStr "hi");
                            ("filename", JStr "a.png"); ("role", JStr "owner")])
              ∅) as (payload & Hsent & _ & _ & _ & Hname & Hother).
  exists payload. split; [by rewrite Hsent|]. split; [exact Hname|].
  apply Hother. rewrite !not_elem_of_cons. repeat split; try discriminate.
  apply not_elem_of_nil.
Defined.

Lemma collab_announcements_witness :
  receives
    (rooms_after (handle_leave_collab "sid-1" (list_to_map [("username", JStr "admin")])
                    (list_to_set [("sid-1", "collab_room"); ("sid-2", "collab_room")])))
    "sid-2"
    (mkEmit "message"
       (list_to_map [("username", JStr "System");
                     ("message", JStr "admin left the collaboration chat.")])
       "collab_room").
Proof.
  destruct (proj2 (proj2 (proj2 (proj2 (collab_announcements "sid-1"
              (list_to_map [("username", JStr "admin")])
              (list_to_set [("sid-1", "collab_room"); ("sid-2", "collab_room")])))))
            "sid-2") as [_ Hleft].
  - discriminate.
  - vm_compute. reflexivity.
  - apply Hleft, list_elem_of_singleton. reflexivity.
Defined.

(** ** Events and rooms together *)

Arguments board_room_name : simpl never.

Lemma board_room_name_ne (b b' : N) :
  b ≠ b' →
  board_room_name (JInt (Z.of_N b)) ≠ board_room_name (JInt (Z.of_N b')).
Proof. intros Hne Heq. by apply board_room_name_inj in Heq. Qed.

Lemma join_other_room sid room room' rooms :
  room' ≠ room → (sid, room) ∉ rooms → (sid, room) ∉ join_room sid room' rooms.
Proof.
  intros Hne Hout. unfold join_room.
  rewrite elem_of_union, elem_of_singleton. intros [[= Heq]|Hin]; congruence.
Qed.

(** X27. Joining a board's room is all it takes to get its chat, and it
    gets nothing else: after [handle_join] with a board id, the connection
    receives every [board_message] sent under an id that prints the same;
    joining the room of one board does not make it receive the messages of
    a different board. *)
Theorem board_message_reaches_joiners sid sender data_join data_msg rooms :
  let rooms' := rooms_after (handle_join sid data_join rooms) in
  (∀ v v', data_join !! "board_id" = Some v →
     data_msg !! "board_id" = Some v' → str v = str v' →
     ∀ e, e ∈ sent (handle_board_message sender data_msg rooms') →
          receives rooms' sid e)
  ∧ (∀ b b' : N, data_join !! "board_id" = Some (JInt (Z.of_N b)) →
     data_msg !! "board_id" = Some (JInt (Z.of_N b')) → b ≠ b' →
     (sid, board_room_name (JInt (Z.of_N b'))) ∉ rooms →
     ∀ e, e ∈ sent (handle_board_message sender data_msg rooms') →
          ¬ receives rooms' sid e).
Proof.
  intros rooms'. subst rooms'.
  unfold handle_join, handle_board_message, receives, join_room. split.
  - intros v v' -> -> Hstr. simpl. destruct (truthy v'); simpl.
    + intros e ->%list_elem_of_singleton. simpl.
      apply elem_of_union_l, elem_of_singleton.
      unfold board_room_name. by rewrite Hstr.
    + intros e He. by apply elem_of_nil in He.
  - intros b b' -> -> Hne Hout. simpl. destruct (negb _); simpl.
    + intros e ->%list_elem_of_singleton. simpl.
      by apply join_other_room; [apply board_room_name_ne|].
    + intros e He. by apply elem_of_nil in He.
Qed.

Lemma board_message_reaches_joiners_witness :
  receives (rooms_after (handle_join "sid-1"
                           (list_to_map [("board_id", JStr "5")]) ∅))
    "sid-1"
    (mkEmit "board_message"
       (list_to_map [("board_id", JInt 5); ("username", JStr "Anonymous");
                     ("message", JStr "hi")])
       "board_5").
Proof.
  apply (proj1 (board_message_reaches_joiners "sid-1" "sid-2"
                  (list_to_map [("board_id", JStr "5")])
                  (list_to_map [("board_id", JInt 5); ("message", JStr "hi")]) ∅)
               (JStr "5") (JInt 5)); try reflexivity.
  apply list_elem_of_singleton. reflexivity.
Defined.

(** X28. The [card_moved] event of a successful move goes to the room of
    the destination board: a connection that has joined that board's room
    receives it, and joining the room of any other board does not bring
    it. *)
Theorem card_moved_scope env req db cid lid l sid rooms :
  lists db !! lid = Some l →
  response (move_card cid lid env req db)
    = Jsonify [("message", "Card moved successfully")] 200 →
  emitted (move_card cid lid env req db) = [card_moved cid lid (board_id l)]
  ∧ ∀ e, e ∈ emitted (move_card cid lid env req db) →
      (∀ data, data !! "board_id" = Some (JInt (Z.of_N (board_id l))) →
         event_reaches (rooms_after (handle_join sid data rooms)) sid e)
      ∧ (∀ data b', data !! "board_id" = Some (JInt (Z.of_N b')) →
         b' ≠ board_id l → ¬ event_reaches rooms sid e →
         ¬ event_reaches (rooms_after (handle_join sid data rooms)) sid e).
Proof.
  intros Hl Hok.
  destruct (move_card_success_inv _ _ _ _ _ Hok)
    as (cu & c & l' & b & Hcu & Hc & Hl' & Hb & Ho & Hmay & Hpos).
  assert (l' = l) as -> by congruence.
  rewrite (move_card_allowed env req db cid lid cu c l b) by done. simpl.
  split; [done|]. intros e ->%list_elem_of_singleton.
  unfold event_reaches, handle_join, join_room. simpl. split.
  - intros data ->. simpl. by apply elem_of_union_l, elem_of_singleton.
  - intros data b' -> Hne Hout. simpl.
    by apply join_other_room; [apply board_room_name_ne|].
Qed.

Lemma card_moved_scope_witness :
  event_reaches
    (rooms_after (handle_join "sid-1" (list_to_map [("board_id", JInt 1)]) ∅))
    "sid-1" (card_moved 5 3 1).
Proof.
  apply (proj2 (card_moved_scope scenario_env
                  (post_as 2 [] [("new_position", 1%Z)]) scenario_db 5 3
                  (mkList "Done" 1) "sid-1" ∅ eq_refl eq_refl)
               (card_moved 5 3 1)).
  - apply list_elem_of_singleton. reflexivity.
  - reflexivity.
Defined.

(** ** Orphan cards *)

(** X29. Under an engine that does not check foreign keys, the card that
    [add_card] writes under a list id that is no row (an id the driver can
    bind) makes [delete_card] raise on [card.list.board_id], before the
    delete, for every logged-in user: in the database [add_card] leaves, a
    delete leaves the card where it is.  [move_card] does not read
    [card.list]: a move of that card onto an existing list, by a user allowed
    on the destination board, is carried out, and after it [delete_card]
    removes the card. *)
Theorem orphan_card_until_moved (P : Platform) lid env req db t cu :
  fk_enforced P = false →
  current_user db req = Some cu →
  form req !! "card_title" = Some t →
  cards db !! new_id env = None →
  lists db !! lid = None →
  id_ok lid = true →
  let cid := new_id env in
  let db1 := db_after (add_card P lid env req db) in
  (∀ env' req', is_Some (current_user db1 req') →
     delete_card cid env' req' db1 = reply db1 [] (Unhandled "AttributeError"))
  ∧ (∀ env2 req2 cu2 lid2 l2 b2,
       current_user db1 req2 = Some cu2 →
       lists db !! lid2 = Some l2 →
       boards db !! board_id l2 = Some b2 →
       is_Some (users db !! user_id b2) →
       may_edit db (board_id l2) b2 cu2.1 →
       int_ok (new_position req2) = true →
       let db2 := db_after (move_card cid lid2 env2 req2 db1) in
       ∀ env3 req3, is_Some (current_user db2 req3) →
         response (delete_card cid env3 req3 db2) = RedirectUrl (referrer req3)
         ∧ cards (db_after (delete_card cid env3 req3 db2)) !! cid = None).
Proof.
  intros Hfk Hcu Ht Hfree Hl Hid cid db1.
  assert (db1 = mkDB (users db) (boards db) (lists db)
                     (<[cid := mkCard t (Some (card_description req)) 0
                                 (utcnow env) lid]> (cards db))
                     (board_collaborators db)) as Hdb1.
  { subst db1 cid. unfold add_card, form_item, insert_row.
    rewrite (login_required_ok _ _ _ Hcu), Ht. simpl.
    rewrite (bind_fk_in_range db _ _ Hid). simpl.
    by rewrite Hfree, (fk_ok_off P _ _ Hfk). }
  clearbody db1. subst db1. split.
  - intros env' req' [cu' Hcu'].
    unfold delete_card, board_of_card.
    rewrite (login_required_ok _ _ _ Hcu'). simpl.
    rewrite lookup_insert_eq. simpl. by rewrite Hl.
  - intros env2 req2 cu2 lid2 l2 b2 Hcu2 Hl2 Hb2 Ho2 Hmay Hpos db2.
    subst db2.
    rewrite (move_card_allowed env2 req2 _ cid lid2 cu2
               (mkCard t (Some (card_description req)) 0 (utcnow env) lid)
               l2 b2); try done; [|apply lookup_insert_eq].
    simpl. intros env3 req3 [cu3 Hcu3].
    unfold delete_card, board_of_card.
    rewrite (login_required_ok _ _ _ Hcu3). simpl.
    rewrite lookup_insert_eq. simpl. rewrite Hl2. simpl.
    split; [done|]. apply lookup_delete_eq.
Qed.

Lemma orphan_card_until_moved_witness :
  let db1 := db_after (add_card (toy_platform false) 99 scenario_env
                         (post_as 2 [("card_title", "Lost")] []) scenario_db) in
  let db2 := db_after (move_card 10 1 scenario_env
                         (post_as 2 [] [("new_position", 3%Z)]) db1) in
  delete_card 10 scenario_env (post_as 2 [] []) db1
    = reply db1 [] (Unhandled "AttributeError")
  ∧ cards (db_after (delete_card 10 scenario_env (post_as 2 [] []) db2)) !! 10%N
    = None.
Proof.
  intros db1 db2.
  destruct (orphan_card_until_moved (toy_platform false) 99 scenario_env
              (post_as 2 [("card_title", "Lost")] []) scenario_db "Lost"
              (2%N, mkUser "bob" "toy$s2$builder" 101)
              eq_refl eq_refl eq_refl eq_refl eq_refl eq_refl)
    as [Hstuck Hmoved].
  split.
  - apply Hstuck. eexists. reflexivity.
  - apply (Hmoved scenario_env (post_as 2 [] [("new_position", 3%Z)])
             (2%N, mkUser "bob" "toy$s2$builder" 101) 1%N (mkList "Todo" 1)
             (mkBoard "Sprint 1" 110 1) eq_refl eq_refl eq_refl
             (ex_intro _ _ eq_refl)).
    + right. vm_compute. reflexivity.
    + reflexivity.
    + eexists. reflexivity.
Defined.
